(** * Teleport: cluster configuration service and SSH signer shim

  A shallow embedding of

  - [lib/services/local/configuration.go]: the
    [ClusterConfigurationService], a typed store for four singleton
    resources on top of a key-value backend, and
  - [api/utils/signer.go]: [AlgSigner] and [fixedAlgorithmSigner].

  The service is written against two collaborators that are Go
  interfaces: the backend ([backend.Backend]) and the resource codecs
  ([services.Get...Marshaler()]).  Service methods are embedded as
  programs over the backend interface (module [local]); the codecs are
  a type class.  An in-memory backend gives the programs their
  meaning. *)

From Stdlib Require Import ZArith String List Bool Lia.
From stdpp Require Import base option list countable gmap strings.

Local Open Scope Z_scope.
Local Open Scope string_scope.

(** Go's [[]byte]. *)
Abbreviation bytes := (list Byte.byte).

(** Go's [time.Time], as an offset from the zero instant: [time.Time{}]
  is [0] and [IsZero] is [t = 0]. *)
Abbreviation Time := Z.

(* ================================================================== *)
(** * Package [trace]: errors *)
(* ================================================================== *)

(** The [trace] library is not part of the repository.  Of an error the
    service looks at its kind ([trace.IsNotFound], [trace.IsCompareFailed])
    and hands it on wrapped ([trace.Wrap]); that much is modelled. *)
Module trace.

Inductive Kind : Set :=
| KNotFound | KAlreadyExists | KCompareFailed | KBadParameter | KOther.

#[global] Instance Kind_eq_dec : EqDecision Kind.
Proof. solve_decision. Defined.

(** An error value: either created with a kind and a message
    ([trace.NotFound(msg)], ..., or an error of a collaborator), or
    another error wrapped by [trace.Wrap], which records the call site
    and keeps the original error. *)
Inductive error : Type :=
| New (k : Kind) (message : string)
| Wrap (e : error).

Definition NotFound := New KNotFound.
Definition AlreadyExists := New KAlreadyExists.
Definition CompareFailed := New KCompareFailed.
Definition BadParameter := New KBadParameter.

Fixpoint kind (e : error) : Kind :=
  match e with
  | New k _ => k
  | Wrap e' => kind e'
  end.

(** The message of the original error. *)
Fixpoint message (e : error) : string :=
  match e with
  | New _ m => m
  | Wrap e' => message e'
  end.

Definition IsNotFound (e : error) : bool := bool_decide (kind e = KNotFound).
Definition IsAlreadyExists (e : error) : bool := bool_decide (kind e = KAlreadyExists).
Definition IsCompareFailed (e : error) : bool := bool_decide (kind e = KCompareFailed).

(** [trace.Wrap(err)] on a Go [error] that may be [nil]. *)
Definition WrapNil (err : option error) : option error :=
  match err with
  | None => None
  | Some e => Some (Wrap e)
  end.

End trace.

(** A Go result pair [(T, error)]: [inl err] when [err != nil]. *)
Abbreviation Result A := (sum trace.error A).

(* ================================================================== *)
(** * Package [backend]: the interface the service is written against *)
(* ================================================================== *)

Module backend.

(** [backend.Item]. *)
Module Item.
Record t : Type := Make {
  Key : string;
  Value : bytes;
  Expires : Time;
  ID : Z
}.
End Item.

(** [backend.Lease], what a write returns. *)
Module Lease.
Record t : Type := Make { Key : string; ID : Z }.
End Lease.

(** Modelled from the spec: [backend.Key] is missing from the sources;
    the spec gives the logical key paths as the parts joined by a
    slash ("cluster_configuration/name"). *)
Definition Key (parts : list string) : string := String.concat "/" parts.

(** One call on the [backend.Backend] interface. *)
Inductive Call : Type :=
| CallGet (key : string)
| CallCreate (i : Item.t)
| CallPut (i : Item.t)
| CallCompareAndSwap (expected replaceWith : Item.t)
| CallDelete (key : string).

Definition is_write (c : Call) : bool :=
  match c with
  | CallGet _ => false
  | _ => true
  end.

(** A client of the backend: a computation that returns, or issues one
    call on the interface and goes on with the answer.  The service
    methods of [configuration.go] are such clients. *)
Inductive Prog (A : Type) : Type :=
| Ret (a : A)
| DoGet (key : string) (k : Result Item.t -> Prog A)
| DoCreate (i : Item.t) (k : Result Lease.t -> Prog A)
| DoPut (i : Item.t) (k : Result Lease.t -> Prog A)
| DoCompareAndSwap (expected replaceWith : Item.t) (k : Result Lease.t -> Prog A)
| DoDelete (key : string) (k : option trace.error -> Prog A).

Arguments Ret {A} a.
Arguments DoGet {A} key k.
Arguments DoCreate {A} i k.
Arguments DoPut {A} i k.
Arguments DoCompareAndSwap {A} expected replaceWith k.
Arguments DoDelete {A} key k.

Fixpoint bind {A B} (p : Prog A) (f : A -> Prog B) : Prog B :=
  match p with
  | Ret a => f a
  | DoGet key k => DoGet key (fun r => bind (k r) f)
  | DoCreate i k => DoCreate i (fun r => bind (k r) f)
  | DoPut i k => DoPut i (fun r => bind (k r) f)
  | DoCompareAndSwap e n k => DoCompareAndSwap e n (fun r => bind (k r) f)
  | DoDelete key k => DoDelete key (fun r => bind (k r) f)
  end.

(** The five methods of the interface, as programs of one call. *)
Definition Get (key : string) : Prog (Result Item.t) := DoGet key Ret.
Definition Create (i : Item.t) : Prog (Result Lease.t) := DoCreate i Ret.
Definition Put (i : Item.t) : Prog (Result Lease.t) := DoPut i Ret.
Definition CompareAndSwap (expected replaceWith : Item.t) : Prog (Result Lease.t) :=
  DoCompareAndSwap expected replaceWith Ret.
Definition Delete (key : string) : Prog (option trace.error) := DoDelete key Ret.

(** The first call a program issues: [None] when it returns without
    touching the backend. *)
Definition first_call {A} (p : Prog A) : option Call :=
  match p with
  | Ret _ => None
  | DoGet key _ => Some (CallGet key)
  | DoCreate i _ => Some (CallCreate i)
  | DoPut i _ => Some (CallPut i)
  | DoCompareAndSwap e n _ => Some (CallCompareAndSwap e n)
  | DoDelete key _ => Some (CallDelete key)
  end.

End backend.

(* ================================================================== *)
(** * An in-memory backend *)
(* ================================================================== *)

Module memory.

Import backend.

(** What the store keeps under a key: the payload, the expiry and the
    revision identifier assigned by the backend. *)
Record Entry : Type := MkEntry {
  entry_value : bytes;
  entry_expires : Time;
  entry_id : Z
}.

(** Modelled from the spec: the key-value backend is missing from the
    sources.  The spec asks for a key-value store with the primitives
    [Get], [Create], [Put], [CompareAndSwap] and [Delete], each atomic
    on a single key, and a backend-assigned revision identifier per
    record.  The state is the records and the next revision identifier
    to hand out.  No clock is modelled: garbage collection of expired
    records is the backend's business and does not happen inside a
    run. *)
Record t : Type := MkBackend {
  records : gmap string Entry;
  nextID : Z
}.

Definition empty : t := {| records := ∅; nextID := 1 |}.

Definition item_of (key : string) (e : Entry) : Item.t :=
  {| Item.Key := key; Item.Value := entry_value e;
     Item.Expires := entry_expires e; Item.ID := entry_id e |}.

(** The record at a key, as [Get] reports it. *)
Definition lookup (key : string) (b : t) : option Item.t :=
  item_of key <$> records b !! key.

(** Every write stores the payload and expiry under a fresh revision. *)
Definition write (key : string) (value : bytes) (expires : Time) (b : t) : t :=
  {| records := <[key := MkEntry value expires (nextID b)]> (records b);
     nextID := nextID b + 1 |}.

Definition lease (key : string) (b : t) : Lease.t :=
  {| Lease.Key := key; Lease.ID := nextID b |}.

(** Modelled from the spec: [Get(key) -> (value, revision, expiry) | NotFound]. *)
Definition Get (key : string) (b : t) : Result Item.t * t :=
  match lookup key b with
  | Some i => (inr i, b)
  | None => (inl (trace.NotFound "key is not found"), b)
  end.

(** Modelled from the spec: [Create(key, value, expiry) -> revision | AlreadyExists],
    an atomic create-if-absent. *)
Definition Create (i : Item.t) (b : t) : Result Lease.t * t :=
  match records b !! Item.Key i with
  | Some _ => (inl (trace.AlreadyExists "key already exists"), b)
  | None => (inr (lease (Item.Key i) b),
             write (Item.Key i) (Item.Value i) (Item.Expires i) b)
  end.

(** Modelled from the spec: [Put(key, value, expiry, optionalPriorRevision) -> revision],
    create-or-overwrite; the prior revision is not used for conflict
    detection. *)
Definition Put (i : Item.t) (b : t) : Result Lease.t * t :=
  (inr (lease (Item.Key i) b),
   write (Item.Key i) (Item.Value i) (Item.Expires i) b).

(** Modelled from the spec:
    [CompareAndSwap(key, expectedRevision, newValue, newExpiry) -> newRevision | ConcurrentModification]:
    the write is applied only if the record at the key still has the
    expected revision. *)
Definition CompareAndSwap (expected replaceWith : Item.t) (b : t)
  : Result Lease.t * t :=
  match records b !! Item.Key expected with
  | Some cur =>
      if decide (entry_id cur = Item.ID expected)
      then (inr (lease (Item.Key expected) b),
            write (Item.Key expected) (Item.Value replaceWith)
                  (Item.Expires replaceWith) b)
      else (inl (trace.CompareFailed "revision does not match"), b)
  | None => (inl (trace.CompareFailed "key is not found"), b)
  end.

(** Modelled from the spec: [Delete(key) -> () | NotFound]. *)
Definition Delete (key : string) (b : t) : option trace.error * t :=
  match records b !! key with
  | Some _ => (None, {| records := delete key (records b); nextID := nextID b |})
  | None => (Some (trace.NotFound "key is not found"), b)
  end.

(** The outcome of a run: what the program returned, the backend
    afterwards, and the calls it issued, in order. *)
Record Outcome (A : Type) : Type := MkOutcome {
  result : A;
  final : t;
  calls : list Call
}.
Arguments MkOutcome {A} result final calls.
Arguments result {A} o.
Arguments final {A} o.
Arguments calls {A} o.

Definition called {A} (c : Call) (o : Outcome A) : Outcome A :=
  {| result := result o; final := final o; calls := c :: calls o |}.

(** Other actors on the same backend: [env] lists what they do to the
    store after each successive call of the program (nothing once the
    list is used up). *)
Definition interfere (env : list (t -> t)) (b : t) : t :=
  match env with
  | [] => b
  | f :: _ => f b
  end.

(** Runs a client against the store, with other actors interleaved
    between its calls. *)
Fixpoint run_with {A} (env : list (t -> t)) (p : Prog A) (b : t) : Outcome A :=
  match p with
  | Ret a => MkOutcome a b []
  | DoGet key k =>
      let '(r, b') := Get key b in
      called (CallGet key) (run_with (tail env) (k r) (interfere env b'))
  | DoCreate i k =>
      let '(r, b') := Create i b in
      called (CallCreate i) (run_with (tail env) (k r) (interfere env b'))
  | DoPut i k =>
      let '(r, b') := Put i b in
      called (CallPut i) (run_with (tail env) (k r) (interfere env b'))
  | DoCompareAndSwap e n k =>
      let '(r, b') := CompareAndSwap e n b in
      called (CallCompareAndSwap e n) (run_with (tail env) (k r) (interfere env b'))
  | DoDelete key k =>
      let '(r, b') := Delete key b in
      called (CallDelete key) (run_with (tail env) (k r) (interfere env b'))
  end.

(** A run with no other actor. *)
Definition run {A} (p : Prog A) (b : t) : Outcome A := run_with [] p b.

(** Runs programs one after the other, each on the store the previous
    one left. *)
Fixpoint run_seq {A} (ps : list (Prog A)) (b : t) : list A * t :=
  match ps with
  | [] => ([], b)
  | p :: ps' =>
      let o := run p b in
      let '(rs, b') := run_seq ps' (final o) in
      (result o :: rs, b')
  end.

(** The effect of one call on the store. *)
Definition effect (c : Call) (b : t) : t :=
  match c with
  | CallGet key => (Get key b).2
  | CallCreate i => (Create i b).2
  | CallPut i => (Put i b).2
  | CallCompareAndSwap e n => (CompareAndSwap e n b).2
  | CallDelete key => (Delete key b).2
  end.

(** The key a call addresses. *)
Definition call_key (c : Call) : string :=
  match c with
  | CallGet key => key
  | CallCreate i => Item.Key i
  | CallPut i => Item.Key i
  | CallCompareAndSwap e _ => Item.Key e
  | CallDelete key => key
  end.

(** ** Vocabulary for statements about runs *)

(** The outcome with the result mapped. *)
Definition map_result {A B} (f : A -> B) (o : Outcome A) : Outcome B :=
  MkOutcome (f (result o)) (final o) (calls o).

(** The three deletes differ in the key and in the message only. *)
Definition delete_outcome (key message : string) (b : t)
  : Outcome (option trace.error) :=
  MkOutcome
    match lookup key b with
    | None => Some (trace.NotFound message)
    | Some _ => None
    end
    (effect (CallDelete key) b) [CallDelete key].

(** An unconditional write: one [Put] of the item, unless the value
    did not marshal. *)
Definition put_outcome (marshaled : Result bytes) (item : bytes -> Item.t)
    (b : t) : Outcome (option trace.error) :=
  match marshaled with
  | inl err => MkOutcome (Some (trace.Wrap err)) b []
  | inr value =>
      MkOutcome None (effect (CallPut (item value)) b)
        [CallPut (item value)]
  end.

(** What a run did to the store: nothing, or the effect of the one
    write call it issued, which is on [key]. *)
Definition one_effect {A} (key : string) (b : t) (o : Outcome A) : Prop :=
  (filter is_write (calls o) = [] /\ final o = b) \/
  (exists c : Call,
     filter is_write (calls o) = [c] /\
     call_key c = key /\
     final o = effect c b).

Definition all_or_nothing (key : string) (b : t)
    (o : Outcome (option trace.error)) : Prop :=
  match result o with
  | Some _ => final o = b
  | None => one_effect key b o
  end.

(** Revision identifiers in the store are older than the next one to
    be handed out: so it is for the empty store, and every call keeps
    it so. *)
Definition wf (b : t) : Prop :=
  forall (key : string) (e : Entry),
    records b !! key = Some e -> entry_id e < nextID b.

End memory.

(* ================================================================== *)
(** * Package [services]: resources, marshal options, codecs *)
(* ================================================================== *)

Module services.

(** Modelled from the spec: the marshal options are missing from the
    sources; the service uses two, which carry the revision identifier
    and the expiry of a backend record to the unmarshaler. *)
Inductive MarshalOption : Type :=
| WithResourceID (id : Z)
| WithExpires (expires : Time).

(** Modelled from the spec: [services.AddOptions] is missing from the
    sources; the added options come after the caller's, so they take
    precedence. *)
Definition AddOptions (opts add : list MarshalOption) : list MarshalOption :=
  opts ++ add.

(** Modelled from the spec: the resource types are missing from the
    sources.  A resource is its content together with the revision
    identifier and the expiry it carries ([GetResourceID], [Expiry]). *)
Record Resource (S : Type) : Type := MkResource {
  Content : S;
  GetResourceID : Z;
  Expiry : Time
}.
Arguments MkResource {S} Content GetResourceID Expiry.
Arguments Content {S} r.
Arguments GetResourceID {S} r.
Arguments Expiry {S} r.

Definition SetResourceID {S} (id : Z) (r : Resource S) : Resource S :=
  MkResource (Content r) id (Expiry r).

Definition SetExpiry {S} (expires : Time) (r : Resource S) : Resource S :=
  MkResource (Content r) (GetResourceID r) expires.

(** The cluster name. *)
Record ClusterNameSpec : Type := MkClusterNameSpec { ClusterName_name : string }.

(** A provisioning token with its optional expiry. *)
Record ProvisionToken : Type := MkProvisionToken {
  Token : string;
  TokenExpires : Time
}.

Record StaticTokensSpec : Type := MkStaticTokensSpec {
  StaticTokens_tokens : list ProvisionToken
}.

(** The authentication policy. *)
Record AuthPreferenceSpec : Type := MkAuthPreferenceSpec {
  AuthType : string;
  SecondFactor : string
}.

(** The general settings: the session-recording mode, and every other
    setting by name. *)
Record ClusterConfigSpec : Type := MkClusterConfigSpec {
  SessionRecording : string;
  OtherSettings : list (string * string)
}.

Definition ClusterName : Type := Resource ClusterNameSpec.
Definition StaticTokens : Type := Resource StaticTokensSpec.
Definition AuthPreference : Type := Resource AuthPreferenceSpec.
Definition ClusterConfig : Type := Resource ClusterConfigSpec.

Definition GetSessionRecording (c : ClusterConfig) : string :=
  SessionRecording (Content c).

Definition SetSessionRecording (s : string) (c : ClusterConfig) : ClusterConfig :=
  MkResource (MkClusterConfigSpec s (OtherSettings (Content c)))
             (GetResourceID c) (Expiry c).

(** A codec, [services.Get...Marshaler()]: opaque to the service. *)
Class Marshaler (S : Type) : Type := {
  Marshal : Resource S -> Result bytes;
  Unmarshal : bytes -> list MarshalOption -> Result (Resource S)
}.

(** What an option does to the value being decoded. *)
Definition apply_option {S} (r : Resource S) (o : MarshalOption) : Resource S :=
  match o with
  | WithResourceID id => SetResourceID id r
  | WithExpires expires => SetExpiry expires r
  end.

Definition apply_options {S} (opts : list MarshalOption) (r : Resource S) : Resource S :=
  fold_left apply_option opts r.

(** The round-trip law of a codec: decoding what was encoded gives a
    value with the same content, with the options applied in order.
    What the metadata is when no option sets it is the codec's own
    business ([base] below: a codec may or may not keep the revision
    identifier and the expiry in the payload). *)
Class RoundTrip (S : Type) `{Marshaler S} : Prop :=
  round_trip : forall (v : Resource S) (b : bytes),
    Marshal v = inr b ->
    exists base : Resource S,
      Content base = Content v /\
      forall opts, Unmarshal b opts = inr (apply_options opts base).

End services.

(* ================================================================== *)
(** * Package [local]: [configuration.go] *)
(* ================================================================== *)

Module local.

Import backend services.

Notation "x <- p ;; q" := (bind p (fun x => q))
  (at level 100, p at next level, right associativity).

Definition clusterConfigPrefix := "cluster_configuration".
Definition namePrefix := "name".
Definition staticTokensPrefix := "static_tokens".
Definition authPrefix := "authentication".
Definition preferencePrefix := "preference".
Definition generalPrefix := "general".

Section ClusterConfigurationService.

Context {ClusterNameMarshaler : Marshaler ClusterNameSpec}.
Context {StaticTokensMarshaler : Marshaler StaticTokensSpec}.
Context {AuthPreferenceMarshaler : Marshaler AuthPreferenceSpec}.
Context {ClusterConfigMarshaler : Marshaler ClusterConfigSpec}.

(** [cc.CheckAndSetDefaults()] of the resource type: the value with its
    defaults filled in, or the validation error. *)
Variable CheckAndSetDefaults : ClusterConfig -> Result ClusterConfig.

Definition GetClusterName (opts : list MarshalOption) : Prog (Result ClusterName) :=
  r <- Get (Key [clusterConfigPrefix; namePrefix]) ;;
  match r with
  | inl err =>
      if trace.IsNotFound err
      then Ret (inl (trace.NotFound "cluster name not found"))
      else Ret (inl (trace.Wrap err))
  | inr item =>
      Ret (Unmarshal (Item.Value item)
             (AddOptions opts [WithResourceID (Item.ID item)]))
  end.

Definition DeleteClusterName : Prog (option trace.error) :=
  err <- Delete (Key [clusterConfigPrefix; namePrefix]) ;;
  match err with
  | Some err =>
      if trace.IsNotFound err
      then Ret (Some (trace.NotFound "cluster configuration not found"))
      else Ret (Some (trace.Wrap err))
  | None => Ret None
  end.

Definition SetClusterName (c : ClusterName) : Prog (option trace.error) :=
  match Marshal c with
  | inl err => Ret (Some (trace.Wrap err))
  | inr value =>
      r <- Create {| Item.Key := Key [clusterConfigPrefix; namePrefix];
                     Item.Value := value;
                     Item.Expires := Expiry c;
                     Item.ID := 0 |} ;;
      match r with
      | inl err => Ret (Some (trace.Wrap err))
      | inr _ => Ret None
      end
  end.

Definition UpsertClusterName (c : ClusterName) : Prog (option trace.error) :=
  match Marshal c with
  | inl err => Ret (Some (trace.Wrap err))
  | inr value =>
      r <- Put {| Item.Key := Key [clusterConfigPrefix; namePrefix];
                  Item.Value := value;
                  Item.Expires := Expiry c;
                  Item.ID := GetResourceID c |} ;;
      match r with
      | inl err => Ret (Some (trace.Wrap err))
      | inr _ => Ret None
      end
  end.

Definition GetStaticTokens : Prog (Result StaticTokens) :=
  r <- Get (Key [clusterConfigPrefix; staticTokensPrefix]) ;;
  match r with
  | inl err =>
      if trace.IsNotFound err
      then Ret (inl (trace.NotFound "static tokens not found"))
      else Ret (inl (trace.Wrap err))
  | inr item =>
      Ret (Unmarshal (Item.Value item)
             [WithResourceID (Item.ID item); WithExpires (Item.Expires item)])
  end.

Definition SetStaticTokens (c : StaticTokens) : Prog (option trace.error) :=
  match Marshal c with
  | inl err => Ret (Some (trace.Wrap err))
  | inr value =>
      r <- Put {| Item.Key := Key [clusterConfigPrefix; staticTokensPrefix];
                  Item.Value := value;
                  Item.Expires := Expiry c;
                  Item.ID := GetResourceID c |} ;;
      match r with
      | inl err => Ret (Some (trace.Wrap err))
      | inr _ => Ret None
      end
  end.

Definition DeleteStaticTokens : Prog (option trace.error) :=
  err <- Delete (Key [clusterConfigPrefix; staticTokensPrefix]) ;;
  match err with
  | Some err =>
      if trace.IsNotFound err
      then Ret (Some (trace.NotFound "static tokens are not found"))
      else Ret (Some (trace.Wrap err))
  | None => Ret None
  end.

Definition GetAuthPreference : Prog (Result AuthPreference) :=
  r <- Get (Key [authPrefix; preferencePrefix; generalPrefix]) ;;
  match r with
  | inl err =>
      if trace.IsNotFound err
      then Ret (inl (trace.NotFound "authentication preference not found"))
      else Ret (inl (trace.Wrap err))
  | inr item =>
      Ret (Unmarshal (Item.Value item)
             [WithResourceID (Item.ID item); WithExpires (Item.Expires item)])
  end.

(** The item is built without [Expires]: the field keeps Go's zero
    value. *)
Definition SetAuthPreference (preferences : AuthPreference) : Prog (option trace.error) :=
  match Marshal preferences with
  | inl err => Ret (Some (trace.Wrap err))
  | inr value =>
      let item := {| Item.Key := Key [authPrefix; preferencePrefix; generalPrefix];
                     Item.Value := value;
                     Item.Expires := 0;
                     Item.ID := GetResourceID preferences |} in
      r <- Put item ;;
      match r with
      | inl err => Ret (Some (trace.Wrap err))
      | inr _ => Ret None
      end
  end.

Definition getClusterConfig (opts : list MarshalOption)
  : Prog (Result (Item.t * ClusterConfig)) :=
  r <- Get (Key [clusterConfigPrefix; generalPrefix]) ;;
  match r with
  | inl err =>
      if trace.IsNotFound err
      then Ret (inl (trace.NotFound "cluster configuration not found"))
      else Ret (inl (trace.Wrap err))
  | inr item =>
      match Unmarshal (Item.Value item)
              (AddOptions opts [WithResourceID (Item.ID item);
                                WithExpires (Item.Expires item)]) with
      | inl err => Ret (inl (trace.Wrap err))
      | inr cc => Ret (inr (item, cc))
      end
  end.

(** The caller's [opts] are not handed to [getClusterConfig]. *)
Definition GetClusterConfig (opts : list MarshalOption) : Prog (Result ClusterConfig) :=
  r <- getClusterConfig [] ;;
  match r with
  | inl err => Ret (inl (trace.Wrap err))
  | inr (_, rc) => Ret (inr rc)
  end.

Definition UpdateClusterConfig (cc : ClusterConfig) : Prog (option trace.error) :=
  match CheckAndSetDefaults cc with
  | inl err => Ret (Some (trace.Wrap err))
  | inr cc =>
      r <- getClusterConfig [] ;;
      match r with
      | inl err => Ret (Some (trace.Wrap err))
      | inr (existingItem, update) =>
          let update := SetSessionRecording (GetSessionRecording cc) update in
          match Marshal update with
          | inl err => Ret (Some (trace.Wrap err))
          | inr updateValue =>
              let updateItem :=
                {| Item.Key := Key [clusterConfigPrefix; generalPrefix];
                   Item.Value := updateValue;
                   Item.Expires := Expiry update;
                   Item.ID := 0 |} in
              r <- CompareAndSwap existingItem updateItem ;;
              match r with
              | inl err =>
                  if trace.IsCompareFailed err
                  then Ret (Some (trace.CompareFailed
                         "cluster configuration has been updated by another client, try again"))
                  else Ret (Some (trace.Wrap err))
              | inr _ => Ret None
              end
          end
      end
  end.

Definition DeleteClusterConfig : Prog (option trace.error) :=
  err <- Delete (Key [clusterConfigPrefix; generalPrefix]) ;;
  match err with
  | Some err =>
      if trace.IsNotFound err
      then Ret (Some (trace.NotFound "cluster configuration not found"))
      else Ret (Some (trace.Wrap err))
  | None => Ret None
  end.

(** As in [SetAuthPreference], the item is built without [Expires]. *)
Definition SetClusterConfig (c : ClusterConfig) : Prog (option trace.error) :=
  match Marshal c with
  | inl err => Ret (Some (trace.Wrap err))
  | inr value =>
      let item := {| Item.Key := Key [clusterConfigPrefix; generalPrefix];
                     Item.Value := value;
                     Item.Expires := 0;
                     Item.ID := GetResourceID c |} in
      r <- Put item ;;
      match r with
      | inl err => Ret (Some (trace.Wrap err))
      | inr _ => Ret None
      end
  end.

(** Every operation of the service. *)
Inductive Operation : Type :=
| OpGetClusterName (opts : list MarshalOption)
| OpDeleteClusterName
| OpSetClusterName (c : ClusterName)
| OpUpsertClusterName (c : ClusterName)
| OpGetStaticTokens
| OpSetStaticTokens (c : StaticTokens)
| OpDeleteStaticTokens
| OpGetAuthPreference
| OpSetAuthPreference (preferences : AuthPreference)
| OpGetClusterConfig (opts : list MarshalOption)
| OpUpdateClusterConfig (cc : ClusterConfig)
| OpDeleteClusterConfig
| OpSetClusterConfig (c : ClusterConfig).

(** The key an operation works on. *)
Definition key_of (op : Operation) : string :=
  match op with
  | OpGetClusterName _ | OpDeleteClusterName
  | OpSetClusterName _ | OpUpsertClusterName _ =>
      Key [clusterConfigPrefix; namePrefix]
  | OpGetStaticTokens | OpSetStaticTokens _ | OpDeleteStaticTokens =>
      Key [clusterConfigPrefix; staticTokensPrefix]
  | OpGetAuthPreference | OpSetAuthPreference _ =>
      Key [authPrefix; preferencePrefix; generalPrefix]
  | OpGetClusterConfig _ | OpUpdateClusterConfig _
  | OpDeleteClusterConfig | OpSetClusterConfig _ =>
      Key [clusterConfigPrefix; generalPrefix]
  end.

(** The [error] of a result pair. *)
Definition error_of {A} (r : Result A) : option trace.error :=
  match r with
  | inl err => Some err
  | inr _ => None
  end.

(** An operation, keeping only the error it returns. *)
Definition perform (op : Operation) : Prog (option trace.error) :=
  match op with
  | OpGetClusterName opts => r <- GetClusterName opts ;; Ret (error_of r)
  | OpDeleteClusterName => DeleteClusterName
  | OpSetClusterName c => SetClusterName c
  | OpUpsertClusterName c => UpsertClusterName c
  | OpGetStaticTokens => r <- GetStaticTokens ;; Ret (error_of r)
  | OpSetStaticTokens c => SetStaticTokens c
  | OpDeleteStaticTokens => DeleteStaticTokens
  | OpGetAuthPreference => r <- GetAuthPreference ;; Ret (error_of r)
  | OpSetAuthPreference p => SetAuthPreference p
  | OpGetClusterConfig opts => r <- GetClusterConfig opts ;; Ret (error_of r)
  | OpUpdateClusterConfig cc => UpdateClusterConfig cc
  | OpDeleteClusterConfig => DeleteClusterConfig
  | OpSetClusterConfig c => SetClusterConfig c
  end.

End ClusterConfigurationService.

(** ** Vocabulary for statements about the service *)

(** The item [SetClusterName] hands to [Create]. *)
Definition created_item (c : ClusterName) (value : bytes) : Item.t :=
  {| Item.Key := (Key [clusterConfigPrefix; namePrefix]); Item.Value := value;
     Item.Expires := Expiry c; Item.ID := 0 |}.

(** The item [UpdateClusterConfig] hands to [CompareAndSwap] as the
    replacement. *)
Definition update_item (update : ClusterConfig) (value : bytes) : Item.t :=
  {| Item.Key := (Key [clusterConfigPrefix; generalPrefix]); Item.Value := value;
     Item.Expires := Expiry update; Item.ID := 0 |}.

(** The error [UpdateClusterConfig] returns when the compare-and-swap
    fails. *)
Definition try_again : trace.error :=
  trace.CompareFailed
    "cluster configuration has been updated by another client, try again".

(** The value read back has the content of [v] and carries the revision
    identifier and the expiry of the record [item]. *)
Definition reads_back {S} (v : Resource S) (item : Item.t)
    (r : Result (Resource S)) : Prop :=
  r = inr (MkResource (Content v) (Item.ID item) (Item.Expires item)).

(** The value read back has the content of [v] and carries the revision
    identifier of the record [item]: it is what the codec makes of the
    payload when handed that revision identifier and no expiry. *)
Definition reads_back_revision {S} `{Marshaler S} (v : Resource S)
    (item : Item.t) (r : Result (Resource S)) : Prop :=
  r = Unmarshal (Item.Value item) [WithResourceID (Item.ID item)] /\
  exists x : Resource S,
    r = inr x /\ Content x = Content v /\ GetResourceID x = Item.ID item.

End local.

(* ================================================================== *)
(** * Package [utils]: [signer.go] *)
(* ================================================================== *)

Module ssh.

(** The two public-key type names of [golang.org/x/crypto/ssh] that
    [AlgSigner] compares with. *)
Definition KeyAlgoRSA := "ssh-rsa".
Definition CertAlgoRSAv01 := "ssh-rsa-cert-v01@openssh.com".

(** [ssh.Signature]. *)
Record Signature : Type := MkSignature {
  Format : string;
  Blob : bytes
}.

(** An [io.Reader] of randomness, as the bytes it yields. *)
Definition Reader : Type := bytes.

(** A value of interface type [ssh.AlgorithmSigner], as its methods. *)
Record AlgorithmSigner : Type := MkAlgorithmSigner {
  PublicKeyType : string;
  Sign : Reader -> bytes -> Result Signature;
  SignWithAlgorithm : Reader -> bytes -> string -> Result Signature
}.

End ssh.

Module utils.

(** [fixedAlgorithmSigner]: an embedded [ssh.AlgorithmSigner] and the
    algorithm to force. *)
Record fixedAlgorithmSigner : Type := MkFixed {
  AlgorithmSigner : ssh.AlgorithmSigner;
  alg : string
}.

Definition fixed_SignWithAlgorithm (s : fixedAlgorithmSigner)
    (rand : ssh.Reader) (data : bytes) (alg' : string) : Result ssh.Signature :=
  let alg' := if (alg' =? "")%string then alg s else alg' in
  ssh.SignWithAlgorithm (AlgorithmSigner s) rand data alg'.

Definition fixed_Sign (s : fixedAlgorithmSigner)
    (rand : ssh.Reader) (data : bytes) : Result ssh.Signature :=
  ssh.SignWithAlgorithm (AlgorithmSigner s) rand data (alg s).

(** A value of interface type [ssh.Signer], by its dynamic type: a
    signer without a [SignWithAlgorithm] method, a signer with one, or
    the wrapper of this package. *)
Inductive Signer : Type :=
| PlainSigner (publicKeyType : string)
              (sign : ssh.Reader -> bytes -> Result ssh.Signature)
| AlgorithmCapable (a : ssh.AlgorithmSigner)
| Fixed (f : fixedAlgorithmSigner).

(** [s.PublicKey().Type()]; the wrapper gets [PublicKey] from the
    signer it embeds. *)
Definition PublicKey_Type (s : Signer) : string :=
  match s with
  | PlainSigner t _ => t
  | AlgorithmCapable a => ssh.PublicKeyType a
  | Fixed f => ssh.PublicKeyType (AlgorithmSigner f)
  end.

(** [s.Sign(rand, data)]. *)
Definition Sign (s : Signer) (rand : ssh.Reader) (data : bytes)
  : Result ssh.Signature :=
  match s with
  | PlainSigner _ sign => sign rand data
  | AlgorithmCapable a => ssh.Sign a rand data
  | Fixed f => fixed_Sign f rand data
  end.

(** The type assertion [s.(ssh.AlgorithmSigner)]. *)
Definition as_AlgorithmSigner (s : Signer) : option ssh.AlgorithmSigner :=
  match s with
  | PlainSigner _ _ => None
  | AlgorithmCapable a => Some a
  | Fixed f =>
      Some {| ssh.PublicKeyType := ssh.PublicKeyType (AlgorithmSigner f);
              ssh.Sign := fixed_Sign f;
              ssh.SignWithAlgorithm := fixed_SignWithAlgorithm f |}
  end.

Definition AlgSigner (s : Signer) (alg : string) : Signer :=
  if (alg =? "")%string then s
  else if negb (PublicKey_Type s =? ssh.KeyAlgoRSA)%string
          && negb (PublicKey_Type s =? ssh.CertAlgoRSAv01)%string then s
  else match as_AlgorithmSigner s with
       | None => s
       | Some a => Fixed {| AlgorithmSigner := a; alg := alg |}
       end.

(** The key is an RSA key or an RSA certificate. *)
Definition rsa_key (s : Signer) : Prop :=
  PublicKey_Type s = ssh.KeyAlgoRSA \/ PublicKey_Type s = ssh.CertAlgoRSAv01.

End utils.

(* ================================================================== *)
(** * A concrete codec and validation, to run the service *)
(* ================================================================== *)

Module example.

Import services.

(** Payload bytes from a positive number, one binary digit per byte. *)
Fixpoint pos_to_bytes (p : positive) : bytes :=
  match p with
  | xH => []
  | xO q => Byte.x00 :: pos_to_bytes q
  | xI q => Byte.x01 :: pos_to_bytes q
  end.

Fixpoint bytes_to_pos (l : bytes) : positive :=
  match l with
  | [] => xH
  | Byte.x00 :: l' => xO (bytes_to_pos l')
  | _ :: l' => xI (bytes_to_pos l')
  end.

#[global] Instance ClusterNameSpec_eq_dec : EqDecision ClusterNameSpec.
Proof. solve_decision. Defined.

#[global] Instance ProvisionToken_eq_dec : EqDecision ProvisionToken.
Proof. solve_decision. Defined.

#[global] Instance StaticTokensSpec_eq_dec : EqDecision StaticTokensSpec.
Proof. solve_decision. Defined.

#[global] Instance AuthPreferenceSpec_eq_dec : EqDecision AuthPreferenceSpec.
Proof. solve_decision. Defined.

#[global] Instance ClusterConfigSpec_eq_dec : EqDecision ClusterConfigSpec.
Proof. solve_decision. Defined.

#[global] Instance ClusterNameSpec_countable : Countable ClusterNameSpec.
Proof.
  apply (inj_countable' ClusterName_name MkClusterNameSpec).
  by intros [].
Defined.

#[global] Instance ProvisionToken_countable : Countable ProvisionToken.
Proof.
  apply (inj_countable' (fun t => (Token t, TokenExpires t))
           (fun p => MkProvisionToken p.1 p.2)).
  by intros [].
Defined.

#[global] Instance StaticTokensSpec_countable : Countable StaticTokensSpec.
Proof.
  apply (inj_countable' StaticTokens_tokens MkStaticTokensSpec).
  by intros [].
Defined.

#[global] Instance AuthPreferenceSpec_countable : Countable AuthPreferenceSpec.
Proof.
  apply (inj_countable' (fun a => (AuthType a, SecondFactor a))
           (fun p => MkAuthPreferenceSpec p.1 p.2)).
  by intros [].
Defined.

#[global] Instance ClusterConfigSpec_countable : Countable ClusterConfigSpec.
Proof.
  apply (inj_countable' (fun c => (SessionRecording c, OtherSettings c))
           (fun p => MkClusterConfigSpec p.1 p.2)).
  by intros [].
Defined.

(** A codec whose payload is the content of the resource; the revision
    identifier and the expiry are annotations of the backend record and
    reach the decoded value through the marshal options. *)
#[global] Instance content_codec (S : Type) `{Countable S} : Marshaler S := {|
  Marshal v := inr (pos_to_bytes (encode (Content v)));
  Unmarshal b opts :=
    match decode (bytes_to_pos b) with
    | Some c => inr (apply_options opts (MkResource c 0 0))
    | None => inl (trace.BadParameter "malformed payload")
    end
|}.

(** A codec for the cluster name that refuses to marshal an empty name,
    and is the codec above otherwise. *)
Definition picky_codec : Marshaler ClusterNameSpec := {|
  Marshal v :=
    if (ClusterName_name (Content v) =? "")%string
    then inl (trace.BadParameter "cluster name is empty")
    else inr (pos_to_bytes (encode (Content v)));
  Unmarshal b opts :=
    match decode (bytes_to_pos b) with
    | Some c => inr (apply_options opts (MkResource c 0 0))
    | None => inl (trace.BadParameter "malformed payload")
    end
|}.

(** A validation of the general settings: an empty session-recording
    mode defaults to "node"; a mode other than "node", "proxy" or "off"
    is rejected. *)
Definition CheckAndSetDefaults (cc : ClusterConfig) : Result ClusterConfig :=
  let mode := GetSessionRecording cc in
  if (mode =? "")%string then inr (SetSessionRecording "node" cc)
  else if (mode =? "node")%string || (mode =? "proxy")%string
          || (mode =? "off")%string then inr cc
  else inl (trace.BadParameter "session recording mode is not valid").

(** Sample values. *)
Definition prod : ClusterName := MkResource (MkClusterNameSpec "prod") 0 1000.
Definition staging : ClusterName := MkResource (MkClusterNameSpec "staging") 0 0.
Definition unnamed : ClusterName := MkResource (MkClusterNameSpec "") 0 0.

Definition tokens : StaticTokens :=
  MkResource (MkStaticTokensSpec [MkProvisionToken "join-me" 500]) 7 2000.

Definition preference : AuthPreference :=
  MkResource (MkAuthPreferenceSpec "local" "otp") 3 3000.

Definition settings : list (string * string) :=
  [("client_idle_timeout", "30m"); ("disconnect_expired_cert", "yes")].

Definition node_config : ClusterConfig :=
  MkResource (MkClusterConfigSpec "node" settings) 5 4000.

Definition proxy_config : ClusterConfig :=
  MkResource (MkClusterConfigSpec "proxy" [("client_idle_timeout", "never")]) 9 0.

Definition off_config : ClusterConfig :=
  MkResource (MkClusterConfigSpec "off" []) 0 0.

Definition bad_config : ClusterConfig :=
  MkResource (MkClusterConfigSpec "everywhere" settings) 0 0.

(** A store that holds [node_config], and another actor that overwrites
    the general settings with [off_config]. *)
Definition node_store : memory.t :=
  memory.final (memory.run (local.SetClusterConfig node_config) memory.empty).

Definition rival (b : memory.t) : memory.t :=
  memory.final (memory.run (local.SetClusterConfig off_config) b).

(** Sample signers: an RSA key whose signer can sign with a chosen
    algorithm (SHA-1, "ssh-rsa", by default), an RSA key whose signer
    cannot, and an Ed25519 key. *)
Definition rsa_methods : ssh.AlgorithmSigner :=
  {| ssh.PublicKeyType := ssh.KeyAlgoRSA;
     ssh.Sign := fun _ data => inr (ssh.MkSignature "ssh-rsa" data);
     ssh.SignWithAlgorithm := fun _ data alg =>
       inr (ssh.MkSignature (if (alg =? "")%string then "ssh-rsa" else alg) data) |}.

Definition rsa_signer : utils.Signer := utils.AlgorithmCapable rsa_methods.

Definition plain_rsa_signer : utils.Signer :=
  utils.PlainSigner ssh.KeyAlgoRSA (fun _ data => inr (ssh.MkSignature "ssh-rsa" data)).

Definition ed25519_signer : utils.Signer :=
  utils.AlgorithmCapable
    {| ssh.PublicKeyType := "ssh-ed25519";
       ssh.Sign := fun _ data => inr (ssh.MkSignature "ssh-ed25519" data);
       ssh.SignWithAlgorithm := fun _ data _ =>
         inr (ssh.MkSignature "ssh-ed25519" data) |}.

End example.

(* ================================================================== *)
(** * Any implementation of the backend interface *)
(* ================================================================== *)

Module impl.

Import backend.

(** An implementation of [backend.Backend], with its state: one
    function per method, free to answer as it likes (a transport error,
    an item under another key, ...).  The service knows nothing else
    about the backend it embeds. *)
Record t (S : Type) : Type := Make {
  Get : string -> S -> Result Item.t * S;
  Create : Item.t -> S -> Result Lease.t * S;
  Put : Item.t -> S -> Result Lease.t * S;
  CompareAndSwap : Item.t -> Item.t -> S -> Result Lease.t * S;
  Delete : string -> S -> option trace.error * S
}.
Arguments Make {S} Get Create Put CompareAndSwap Delete.
Arguments Get {S} h key s : rename.
Arguments Create {S} h i s : rename.
Arguments Put {S} h i s : rename.
Arguments CompareAndSwap {S} h expected replaceWith s : rename.
Arguments Delete {S} h key s : rename.

(** What the backend answered to a call. *)
Inductive Answer : Type :=
| GotItem (r : Result Item.t)
| GotLease (r : Result Lease.t)
| Deleted (err : option trace.error).

(** The error of an answer, if it is one. *)
Definition failure (a : Answer) : option trace.error :=
  match a with
  | GotItem (inl err) | GotLease (inl err) => Some err
  | GotItem (inr _) | GotLease (inr _) => None
  | Deleted err => err
  end.

(** The outcome of a run: what the program returned, the state of the
    backend afterwards, and the calls with their answers, in order. *)
Record Outcome (S A : Type) : Type := MkOutcome {
  result : A;
  final : S;
  exchanges : list (Call * Answer)
}.
Arguments MkOutcome {S A} result final exchanges.
Arguments result {S A} o.
Arguments final {S A} o.
Arguments exchanges {S A} o.

Definition exchanged {S A} (c : Call) (a : Answer) (o : Outcome S A) : Outcome S A :=
  {| result := result o; final := final o; exchanges := (c, a) :: exchanges o |}.

(** Runs a client against an implementation. *)
Fixpoint run {S A} (h : t S) (p : Prog A) (s : S) : Outcome S A :=
  match p with
  | Ret a => MkOutcome a s []
  | DoGet key k =>
      let '(r, s') := Get h key s in
      exchanged (CallGet key) (GotItem r) (run h (k r) s')
  | DoCreate i k =>
      let '(r, s') := Create h i s in
      exchanged (CallCreate i) (GotLease r) (run h (k r) s')
  | DoPut i k =>
      let '(r, s') := Put h i s in
      exchanged (CallPut i) (GotLease r) (run h (k r) s')
  | DoCompareAndSwap e n k =>
      let '(r, s') := CompareAndSwap h e n s in
      exchanged (CallCompareAndSwap e n) (GotLease r) (run h (k r) s')
  | DoDelete key k =>
      let '(r, s') := Delete h key s in
      exchanged (CallDelete key) (Deleted r) (run h (k r) s')
  end.

(** The calls of a run, without the answers. *)
Definition calls {S A} (o : Outcome S A) : list Call := (exchanges o).*1.

(** The in-memory store is one implementation. *)
Definition in_memory : t memory.t :=
  Make memory.Get memory.Create memory.Put memory.CompareAndSwap memory.Delete.

(** The in-memory store behind a connection that lets reads through
    only: every write is refused, and nothing changes. *)
Definition read_only : t memory.t :=
  let refused := trace.New trace.KOther "connection is read-only" in
  Make memory.Get
       (fun _ b => (inl refused, b))
       (fun _ b => (inl refused, b))
       (fun _ _ b => (inl refused, b))
       (fun _ b => (Some refused, b)).

(** What a call asks the backend to read or to write under: the key
    read, created, put or deleted, and for a compare-and-swap the key of
    the replacement. *)
Definition target (c : Call) : string :=
  match c with
  | CallGet key => key
  | CallCreate i => Item.Key i
  | CallPut i => Item.Key i
  | CallCompareAndSwap _ n => Item.Key n
  | CallDelete key => key
  end.

(** The calls an operation on [key] may issue: nothing, one read, one
    write, or one read and then one write; reads and writes are on
    [key]. *)
Definition read_then_write (key : string) (cs : list Call) : Prop :=
  cs = [] \/ cs = [CallGet key] \/
  exists w : Call,
    is_write w = true /\ target w = key /\
    (cs = [w] \/ cs = [CallGet key; w]).

(** An error answer ends the exchanges, and the error returned has the
    kind of that answer. *)
Definition stops_at_failure (r : option trace.error)
    (xs : list (Call * Answer)) : Prop :=
  forall (before after : list (Call * Answer)) (c : Call) (a : Answer)
         (err : trace.error),
    xs = (before ++ (c, a) :: after)%list ->
    failure a = Some err ->
    after = [] /\
    exists e : trace.error, r = Some e /\ trace.kind e = trace.kind err.

(** The operations that are meant to change the store; the others are
    the four reads. *)
Definition writes (op : local.Operation) : bool :=
  match op with
  | local.OpGetClusterName _ | local.OpGetStaticTokens
  | local.OpGetAuthPreference | local.OpGetClusterConfig _ => false
  | _ => true
  end.

(** The payload a call carries to the backend, for the calls that carry
    one item (the replacement of a compare-and-swap is not
    counted here). *)
Definition carried (c : Call) : option bytes :=
  match c with
  | CallCreate i | CallPut i => Some (Item.Value i)
  | _ => None
  end.

Section FullWrites.

Context {ClusterNameMarshaler : services.Marshaler services.ClusterNameSpec}.
Context {StaticTokensMarshaler : services.Marshaler services.StaticTokensSpec}.
Context {AuthPreferenceMarshaler : services.Marshaler services.AuthPreferenceSpec}.
Context {ClusterConfigMarshaler : services.Marshaler services.ClusterConfigSpec}.

(** The five operations that write a whole value, with what the codec
    makes of the value. *)
Definition marshaled (op : local.Operation) : option (Result bytes) :=
  match op with
  | local.OpSetClusterName c | local.OpUpsertClusterName c =>
      Some (services.Marshal c)
  | local.OpSetStaticTokens c => Some (services.Marshal c)
  | local.OpSetAuthPreference p => Some (services.Marshal p)
  | local.OpSetClusterConfig c => Some (services.Marshal c)
  | _ => None
  end.

Variable CheckAndSetDefaults : services.ClusterConfig -> Result services.ClusterConfig.

(** The result of [Updateservices.ClusterConfig] when nobody else writes, read
    off the record at the key. *)
Definition update_result (cc : services.ClusterConfig) (record : option Item.t)
  : option trace.error :=
  match CheckAndSetDefaults cc with
  | inl err => Some (trace.Wrap err)
  | inr cc' =>
      match record with
      | None =>
          Some (trace.Wrap (trace.NotFound "cluster configuration not found"))
      | Some item =>
          match services.Unmarshal (Item.Value item)
                  [services.WithResourceID (Item.ID item); services.WithExpires (Item.Expires item)] with
          | inl err => Some (trace.Wrap (trace.Wrap err))
          | inr current =>
              match services.Marshal (services.SetSessionRecording (services.GetSessionRecording cc') current) with
              | inl err => Some (trace.Wrap err)
              | inr _ => None
              end
          end
      end
  end.

End FullWrites.

(** The value of the general settings with the session-recording mode
    of [cc'] and everything else as decoded from the record [item] that
    holds the settings [w]. *)
Definition merged (cc' w : services.ClusterConfig) (item : Item.t)
  : services.ClusterConfig :=
  services.SetSessionRecording (services.GetSessionRecording cc')
    (services.MkResource (services.Content w) (Item.ID item) (Item.Expires item)).

(** The expiry the caller's options ask for: that of the last
    [WithExpires] among them. *)
Fixpoint last_expiry (opts : list services.MarshalOption) : option Time :=
  match opts with
  | [] => None
  | services.WithExpires t :: rest =>
      match last_expiry rest with
      | Some t' => Some t'
      | None => Some t
      end
  | services.WithResourceID _ :: rest => last_expiry rest
  end.

(** The three deletes. *)
Definition deletes (op : local.Operation) : bool :=
  match op with
  | local.OpDeleteClusterName | local.OpDeleteStaticTokens
  | local.OpDeleteClusterConfig => true
  | _ => false
  end.

(** What an implementation answers to one call, and its state after
    the call. *)
Definition answer {S} (h : t S) (c : Call) (s : S) : Answer :=
  match c with
  | CallGet key => GotItem (Get h key s).1
  | CallCreate i => GotLease (Create h i s).1
  | CallPut i => GotLease (Put h i s).1
  | CallCompareAndSwap e n => GotLease (CompareAndSwap h e n s).1
  | CallDelete key => Deleted (Delete h key s).1
  end.

Definition effect {S} (h : t S) (c : Call) (s : S) : S :=
  match c with
  | CallGet key => (Get h key s).2
  | CallCreate i => (Create h i s).2
  | CallPut i => (Put h i s).2
  | CallCompareAndSwap e n => (CompareAndSwap h e n s).2
  | CallDelete key => (Delete h key s).2
  end.

(** Modelled from the spec: every backend primitive used is atomic at
    the single-key granularity, so that a call that fails (a
    cancellation, a lost comparison, ...) leaves the state exactly as it
    was before the attempted write; and a read changes nothing. *)
Definition atomic {S} (h : t S) : Prop :=
  forall (c : Call) (s : S),
    is_write c = false \/ failure (answer h c s) <> None ->
    effect h c s = s.

(** The exchanges end with a write that the backend answered without
    an error. *)
Definition acknowledged_write (xs : list (Call * Answer)) : Prop :=
  exists (before : list (Call * Answer)) (w : Call) (a : Answer),
    xs = (before ++ [(w, a)])%list /\ is_write w = true /\ failure a = None.

End impl.

(* ================================================================== *)
(** * Properties of the cluster configuration service *)
(* ================================================================== *)

Module local_props.

Import backend services local.

Abbreviation nameKey := (Key [clusterConfigPrefix; namePrefix]).
Abbreviation staticTokensKey := (Key [clusterConfigPrefix; staticTokensPrefix]).
Abbreviation authPreferenceKey := (Key [authPrefix; preferencePrefix; generalPrefix]).
Abbreviation generalKey := (Key [clusterConfigPrefix; generalPrefix]).

(** ** The in-memory backend *)

Lemma lookup_Some key b i :
  memory.lookup key b = Some i ->
  exists e, memory.records b !! key = Some e /\ i = memory.item_of key e.
Proof.
  unfold memory.lookup. destruct (memory.records b !! key) as [e|]; [|done].
  intros [= <-]. eauto.
Qed.

Lemma lookup_None key b :
  memory.lookup key b = None <-> memory.records b !! key = None.
Proof.
  unfold memory.lookup. by destruct (memory.records b !! key).
Qed.

Lemma lookup_write key value expires b :
  memory.lookup key (memory.write key value expires b)
  = Some {| Item.Key := key; Item.Value := value;
            Item.Expires := expires; Item.ID := memory.nextID b |}.
Proof.
  unfold memory.lookup, memory.write; simpl. by rewrite lookup_insert_eq.
Qed.

Lemma lookup_write_ne key key' value expires b :
  key <> key' ->
  memory.lookup key' (memory.write key value expires b) = memory.lookup key' b.
Proof.
  intros Hne. unfold memory.lookup, memory.write; simpl.
  by rewrite lookup_insert_ne.
Qed.

Lemma Get_found key b i :
  memory.lookup key b = Some i -> memory.Get key b = (inr i, b).
Proof. unfold memory.Get. by intros ->. Qed.

Lemma Get_missing key b :
  memory.lookup key b = None ->
  memory.Get key b = (inl (trace.NotFound "key is not found"), b).
Proof. unfold memory.Get. by intros ->. Qed.

Lemma Item_eta (i : Item.t) :
  {| Item.Key := Item.Key i; Item.Value := Item.Value i;
     Item.Expires := Item.Expires i; Item.ID := Item.ID i |} = i.
Proof. by destruct i. Qed.

(** ** Revisions only grow *)

Lemma wf_empty : memory.wf memory.empty.
Proof. intros key e. unfold memory.empty; simpl. by rewrite lookup_empty. Qed.

Lemma wf_write key value expires b :
  memory.wf b -> memory.wf (memory.write key value expires b).
Proof.
  intros Hwf key' e. unfold memory.write; simpl.
  destruct (decide (key = key')) as [->|Hne].
  - rewrite lookup_insert_eq. intros [= <-]. simpl. lia.
  - rewrite lookup_insert_ne by done. intros He%Hwf. lia.
Qed.

Lemma wf_effect (c : Call) (b : memory.t) :
  memory.wf b -> memory.wf (memory.effect c b).
Proof.
  intros Hwf. destruct c as [key|i|i|e n|key]; simpl.
  - unfold memory.Get. by destruct (memory.lookup key b).
  - unfold memory.Create. destruct (memory.records b !! Item.Key i); [done|].
    by apply wf_write.
  - by apply wf_write.
  - unfold memory.CompareAndSwap.
    destruct (memory.records b !! Item.Key e) as [cur|]; [|done].
    destruct (decide _); [|done]. by apply wf_write.
  - unfold memory.Delete. destruct (memory.records b !! key) eqn:He; [|done].
    intros key' e'; simpl.
    destruct (decide (key = key')) as [->|Hne].
    + by rewrite lookup_delete_eq.
    + rewrite lookup_delete_ne by done. apply Hwf.
Qed.

(** Whatever call another actor makes: if the record at [key] is not
    what it was, it has another revision. *)
Lemma changed_record_new_revision
    (c : Call) (b : memory.t) (key : string) (item theirs : Item.t) :
  memory.wf b ->
  memory.lookup key b = Some item ->
  memory.lookup key (memory.effect c b) = Some theirs ->
  theirs <> item ->
  Item.ID theirs <> Item.ID item.
Proof.
  intros Hwf Hitem Htheirs Hne.
  assert (Hlt : Item.ID item < memory.nextID b).
  { apply lookup_Some in Hitem as (e & He & ->). simpl. by apply (Hwf key). }
  assert (Hwritten : forall k v x,
            memory.lookup key (memory.write k v x b) = Some theirs ->
            Item.ID theirs <> Item.ID item).
  { intros k v x Hw. destruct (decide (k = key)) as [->|Hk].
    - rewrite lookup_write in Hw. injection Hw as <-. simpl. lia.
    - rewrite lookup_write_ne in Hw by done. congruence. }
  destruct c as [k|i|i|e n|k]; simpl in Htheirs.
  - unfold memory.Get in Htheirs.
    destruct (memory.lookup k b); simpl in Htheirs; congruence.
  - unfold memory.Create in Htheirs.
    destruct (memory.records b !! Item.Key i); simpl in Htheirs;
      [congruence|by eapply Hwritten].
  - by eapply Hwritten.
  - unfold memory.CompareAndSwap in Htheirs.
    destruct (memory.records b !! Item.Key e) as [cur|]; simpl in Htheirs;
      [|congruence].
    destruct (decide _); simpl in Htheirs; [by eapply Hwritten|congruence].
  - unfold memory.Delete in Htheirs.
    destruct (memory.records b !! k) eqn:Hk; simpl in Htheirs; [|congruence].
    unfold memory.lookup in Htheirs; simpl in Htheirs.
    destruct (decide (k = key)) as [->|Hkey].
    + by rewrite lookup_delete_eq in Htheirs.
    + rewrite lookup_delete_ne in Htheirs by done.
      unfold memory.lookup in Hitem. congruence.
Qed.

(** In particular an unconditional write by another actor gives the
    record a revision the reader has not seen. *)
Lemma other_Put_new_revision (i : Item.t) (b : memory.t) (item : Item.t) :
  memory.wf b ->
  memory.lookup (Item.Key i) b = Some item ->
  exists theirs : Item.t,
    memory.lookup (Item.Key i) (memory.effect (CallPut i) b) = Some theirs /\
    Item.Value theirs = Item.Value i /\
    Item.ID theirs <> Item.ID item.
Proof.
  intros Hwf Hitem. simpl. rewrite lookup_write.
  eexists. split; [reflexivity|]. split; [reflexivity|]. simpl.
  apply lookup_Some in Hitem as (e & He & ->). simpl.
  specialize (Hwf _ _ He). lia.
Qed.

(** ** What each operation does on the in-memory backend *)

Lemma run_with_bind_Ret {A B} (f : A -> B) (p : Prog A) :
  forall (env : list (memory.t -> memory.t)) (b : memory.t),
    memory.run_with env (bind p (fun r => Ret (f r))) b
    = memory.map_result f (memory.run_with env p b).
Proof.
  induction p as [a|key k IH|i k IH|i k IH|e n k IH|key k IH];
    intros env b; simpl; [reflexivity|..].
  - destruct (memory.Get key b) as [r b']. by rewrite IH.
  - destruct (memory.Create i b) as [r b']. by rewrite IH.
  - destruct (memory.Put i b) as [r b']. by rewrite IH.
  - destruct (memory.CompareAndSwap e n b) as [r b']. by rewrite IH.
  - destruct (memory.Delete key b) as [r b']. by rewrite IH.
Qed.

Section Runs.

Context {ClusterNameMarshaler : Marshaler ClusterNameSpec}.
Context {StaticTokensMarshaler : Marshaler StaticTokensSpec}.
Context {AuthPreferenceMarshaler : Marshaler AuthPreferenceSpec}.
Context {ClusterConfigMarshaler : Marshaler ClusterConfigSpec}.
Variable CheckAndSetDefaults : ClusterConfig -> Result ClusterConfig.

Ltac run_get :=
  intros; unfold memory.run, Get; cbn -[Key]; unfold memory.Get;
  destruct (memory.lookup _ _); reflexivity.

Lemma run_GetClusterName (opts : list MarshalOption) (b : memory.t) :
  memory.run (GetClusterName opts) b
  = memory.MkOutcome
      match memory.lookup nameKey b with
      | None => inl (trace.NotFound "cluster name not found")
      | Some item =>
          Unmarshal (Item.Value item) (opts ++ [WithResourceID (Item.ID item)])
      end b [CallGet nameKey].
Proof. unfold GetClusterName. run_get. Qed.

Lemma run_GetStaticTokens (b : memory.t) :
  memory.run GetStaticTokens b
  = memory.MkOutcome
      match memory.lookup staticTokensKey b with
      | None => inl (trace.NotFound "static tokens not found")
      | Some item =>
          Unmarshal (Item.Value item)
            [WithResourceID (Item.ID item); WithExpires (Item.Expires item)]
      end b [CallGet staticTokensKey].
Proof. unfold GetStaticTokens. run_get. Qed.

Lemma run_GetAuthPreference (b : memory.t) :
  memory.run GetAuthPreference b
  = memory.MkOutcome
      match memory.lookup authPreferenceKey b with
      | None => inl (trace.NotFound "authentication preference not found")
      | Some item =>
          Unmarshal (Item.Value item)
            [WithResourceID (Item.ID item); WithExpires (Item.Expires item)]
      end b [CallGet authPreferenceKey].
Proof. unfold GetAuthPreference. run_get. Qed.

Lemma run_GetClusterConfig (opts : list MarshalOption) (b : memory.t) :
  memory.run (GetClusterConfig opts) b
  = memory.MkOutcome
      match memory.lookup generalKey b with
      | None => inl (trace.Wrap (trace.NotFound "cluster configuration not found"))
      | Some item =>
          match Unmarshal (Item.Value item)
                  [WithResourceID (Item.ID item); WithExpires (Item.Expires item)] with
          | inl err => inl (trace.Wrap (trace.Wrap err))
          | inr cc => inr cc
          end
      end b [CallGet generalKey].
Proof.
  unfold memory.run, GetClusterConfig, getClusterConfig, Get; cbn -[Key].
  unfold memory.Get. destruct (memory.lookup _ b) as [item|]; cbn -[Key]; [|reflexivity].
  unfold AddOptions; simpl. by destruct (Unmarshal _ _).
Qed.

Ltac run_delete :=
  intros; unfold memory.run, memory.delete_outcome, Delete, memory.lookup;
  cbn -[Key]; unfold memory.Delete;
  destruct (memory.records _ !! _); reflexivity.

Lemma run_DeleteClusterName (b : memory.t) :
  memory.run DeleteClusterName b
  = memory.delete_outcome nameKey "cluster configuration not found" b.
Proof. unfold DeleteClusterName. run_delete. Qed.

Lemma run_DeleteStaticTokens (b : memory.t) :
  memory.run DeleteStaticTokens b
  = memory.delete_outcome staticTokensKey "static tokens are not found" b.
Proof. unfold DeleteStaticTokens. run_delete. Qed.

Lemma run_DeleteClusterConfig (b : memory.t) :
  memory.run DeleteClusterConfig b
  = memory.delete_outcome generalKey "cluster configuration not found" b.
Proof. unfold DeleteClusterConfig. run_delete. Qed.

Ltac run_put :=
  intros; unfold memory.run, memory.put_outcome, Put;
  destruct (Marshal _); reflexivity.

Lemma run_UpsertClusterName (c : ClusterName) (b : memory.t) :
  memory.run (UpsertClusterName c) b
  = memory.put_outcome (Marshal c)
      (fun value => {| Item.Key := nameKey; Item.Value := value;
                       Item.Expires := Expiry c;
                       Item.ID := GetResourceID c |}) b.
Proof. unfold UpsertClusterName. run_put. Qed.

Lemma run_SetStaticTokens (c : StaticTokens) (b : memory.t) :
  memory.run (SetStaticTokens c) b
  = memory.put_outcome (Marshal c)
      (fun value => {| Item.Key := staticTokensKey; Item.Value := value;
                       Item.Expires := Expiry c;
                       Item.ID := GetResourceID c |}) b.
Proof. unfold SetStaticTokens. run_put. Qed.

Lemma run_SetAuthPreference (preferences : AuthPreference) (b : memory.t) :
  memory.run (SetAuthPreference preferences) b
  = memory.put_outcome (Marshal preferences)
      (fun value => {| Item.Key := authPreferenceKey; Item.Value := value;
                       Item.Expires := 0;
                       Item.ID := GetResourceID preferences |}) b.
Proof. unfold SetAuthPreference. run_put. Qed.

Lemma run_SetClusterConfig (c : ClusterConfig) (b : memory.t) :
  memory.run (SetClusterConfig c) b
  = memory.put_outcome (Marshal c)
      (fun value => {| Item.Key := generalKey; Item.Value := value;
                       Item.Expires := 0;
                       Item.ID := GetResourceID c |}) b.
Proof. unfold SetClusterConfig. run_put. Qed.

Lemma run_SetClusterName (c : ClusterName) (b : memory.t) :
  memory.run (SetClusterName c) b
  = match Marshal c with
    | inl err => memory.MkOutcome (Some (trace.Wrap err)) b []
    | inr value =>
        memory.MkOutcome
          match memory.lookup nameKey b with
          | Some _ => Some (trace.Wrap (trace.AlreadyExists "key already exists"))
          | None => None
          end
          (memory.effect (CallCreate (created_item c value)) b)
          [CallCreate (created_item c value)]
    end.
Proof.
  unfold memory.run, SetClusterName, Create, memory.lookup.
  destruct (Marshal c) as [err|value]; [reflexivity|].
  cbn -[Key]. unfold memory.Create. cbn -[Key].
  by destruct (memory.records b !! nameKey).
Qed.

End Runs.

Section Service.

Context {ClusterNameMarshaler : Marshaler ClusterNameSpec}.
Context {StaticTokensMarshaler : Marshaler StaticTokensSpec}.
Context {AuthPreferenceMarshaler : Marshaler AuthPreferenceSpec}.
Context {ClusterConfigMarshaler : Marshaler ClusterConfigSpec}.
Variable CheckAndSetDefaults : ClusterConfig -> Result ClusterConfig.

(** ** Validation comes first *)

(** C4: when [CheckAndSetDefaults] rejects the value,
    [UpdateClusterConfig] is the program that returns the wrapped
    validation error at once: whatever the backend holds and whatever
    other actors do, it issues no call (no read, no write) and the
    store is as it was. *)
Theorem UpdateClusterConfig_validation_first
    (cc : ClusterConfig) (err : trace.error) :
  CheckAndSetDefaults cc = inl err ->
  UpdateClusterConfig CheckAndSetDefaults cc = Ret (Some (trace.Wrap err)) /\
  first_call (UpdateClusterConfig CheckAndSetDefaults cc) = None /\
  forall (env : list (memory.t -> memory.t)) (b : memory.t),
    memory.run_with env (UpdateClusterConfig CheckAndSetDefaults cc) b
    = memory.MkOutcome (Some (trace.Wrap err)) b [].
Proof.
  intros Hcheck. unfold UpdateClusterConfig. rewrite Hcheck.
  split; [reflexivity|]. split; [reflexivity|].
  intros env b. reflexivity.
Qed.

(** A value that passes validation does reach the backend: the first
    thing [UpdateClusterConfig] does then is the read. *)
Lemma UpdateClusterConfig_valid_reads (cc cc' : ClusterConfig) :
  CheckAndSetDefaults cc = inr cc' ->
  first_call (UpdateClusterConfig CheckAndSetDefaults cc) = Some (CallGet generalKey).
Proof.
  intros Hcheck. unfold UpdateClusterConfig. rewrite Hcheck. reflexivity.
Qed.

(** ** Reading the general settings *)

Lemma run_getClusterConfig (opts : list MarshalOption) (b : memory.t) :
  memory.run (getClusterConfig opts) b
  = memory.MkOutcome
      match memory.lookup generalKey b with
      | None => inl (trace.NotFound "cluster configuration not found")
      | Some item =>
          match Unmarshal (Item.Value item)
                  (opts ++ [WithResourceID (Item.ID item);
                            WithExpires (Item.Expires item)]) with
          | inl err => inl (trace.Wrap err)
          | inr cc => inr (item, cc)
          end
      end b [CallGet generalKey].
Proof.
  unfold memory.run, getClusterConfig, Get; simpl. unfold memory.Get.
  destruct (memory.lookup _ b) as [item|]; simpl; [|reflexivity].
  unfold AddOptions.
  by destruct (Unmarshal _ _).
Qed.

(** C8: [GetClusterConfig opts] is the same program as
    [GetClusterConfig] with no options, so on every backend state it
    returns the same result; the unmarshaler is handed just the revision
    identifier and the expiry of the record read, never [opts]. *)
Theorem GetClusterConfig_ignores_options
    (opts : list MarshalOption) (b : memory.t) :
  GetClusterConfig opts = GetClusterConfig [] /\
  memory.run (GetClusterConfig opts) b = memory.run (GetClusterConfig []) b /\
  memory.result (memory.run (GetClusterConfig opts) b)
  = match memory.lookup generalKey b with
    | None => inl (trace.Wrap (trace.NotFound "cluster configuration not found"))
    | Some item =>
        match Unmarshal (Item.Value item)
                [WithResourceID (Item.ID item); WithExpires (Item.Expires item)] with
        | inl err => inl (trace.Wrap (trace.Wrap err))
        | inr cc => inr cc
        end
    end.
Proof.
  split; [reflexivity|]. split; [reflexivity|].
  unfold memory.run, GetClusterConfig, getClusterConfig, Get; simpl.
  unfold memory.Get.
  destruct (memory.lookup _ b) as [item|]; simpl; [|reflexivity].
  by destruct (Unmarshal _ _).
Qed.

End Service.

(** ** The cluster name is set once *)

Section ClusterNameOnce.

Context {ClusterNameMarshaler : Marshaler ClusterNameSpec}.

Lemma SetClusterName_absent (b : memory.t) (c : ClusterName) (value : bytes) :
  memory.lookup nameKey b = None ->
  Marshal c = inr value ->
  memory.run (SetClusterName c) b
  = memory.MkOutcome None (memory.write nameKey value (Expiry c) b)
      [CallCreate (created_item c value)].
Proof.
  intros Habsent%lookup_None Hvalue.
  unfold memory.run, SetClusterName. rewrite Hvalue. cbn -[Key].
  unfold memory.Create. cbn -[Key]. by rewrite Habsent.
Qed.

Lemma SetClusterName_present (b : memory.t) (c : ClusterName) (item : Item.t) :
  memory.lookup nameKey b = Some item ->
  exists e : trace.error,
    memory.result (memory.run (SetClusterName c) b) = Some e /\
    memory.final (memory.run (SetClusterName c) b) = b /\
    (forall value, Marshal c = inr value ->
       trace.IsAlreadyExists e = true /\
       memory.calls (memory.run (SetClusterName c) b)
       = [CallCreate (created_item c value)]).
Proof.
  intros (e & He & _)%lookup_Some.
  unfold memory.run, SetClusterName.
  destruct (Marshal c) as [err|value]; cbn -[Key].
  - exists (trace.Wrap err). by repeat split.
  - unfold memory.Create. cbn -[Key]. rewrite He. cbn -[Key].
    eexists. split; [reflexivity|]. split; [reflexivity|].
    by intros ? [= <-].
Qed.

(** A value that the codec does not marshal stops [SetClusterName]
    before the backend is reached, whatever the store holds. *)
Lemma SetClusterName_unmarshalable
    (b : memory.t) (c : ClusterName) (err : trace.error) :
  Marshal c = inl err ->
  memory.run (SetClusterName c) b
  = memory.MkOutcome (Some (trace.Wrap err)) b [].
Proof. intros Herr. unfold memory.run, SetClusterName. by rewrite Herr. Qed.

(** C1: as the code has it.  On a store with no record at the cluster
    name's key, [SetClusterName c] (whose value marshals to [value])
    succeeds with one [Create] and stores [value] with the expiry of
    [c] under a fresh revision.  After that, every further
    [SetClusterName], in any number and with any values, returns an
    error and the store stays exactly as the first call left it; the
    error is [AlreadyExists] (the backend's, wrapped) for every value
    that marshals, and the wrapped error of the codec for a value that
    does not. *)
Theorem SetClusterName_once
    (b : memory.t) (c : ClusterName) (value : bytes) :
  memory.lookup nameKey b = None ->
  Marshal c = inr value ->
  let first := memory.run (SetClusterName c) b in
  memory.result first = None /\
  memory.calls first = [CallCreate (created_item c value)] /\
  memory.lookup nameKey (memory.final first)
  = Some {| Item.Key := nameKey; Item.Value := value;
            Item.Expires := Expiry c; Item.ID := memory.nextID b |} /\
  forall later : list ClusterName,
    let rest := memory.run_seq (map SetClusterName later) (memory.final first) in
    rest.2 = memory.final first /\
    Forall2 (fun c' r =>
               exists e : trace.error,
                 r = Some e /\
                 (forall value', Marshal c' = inr value' ->
                    trace.IsAlreadyExists e = true) /\
                 (forall err, Marshal c' = inl err -> e = trace.Wrap err))
            later rest.1.
Proof.
  intros Habsent Hvalue first. subst first.
  rewrite (SetClusterName_absent b c value Habsent Hvalue). cbn -[Key].
  split; [reflexivity|]. split; [reflexivity|].
  split; [apply lookup_write|].
  set (b1 := memory.write nameKey value (Expiry c) b).
  assert (Hpresent : exists item, memory.lookup nameKey b1 = Some item).
  { eexists. apply lookup_write. }
  clearbody b1. clear Habsent Hvalue.
  induction later as [|c' later IH]; cbn -[Key].
  - split; [reflexivity|constructor].
  - destruct Hpresent as [item Hitem].
    destruct (SetClusterName_present b1 c' item Hitem) as (e & Hres & Hfin & Hkind).
    rewrite Hfin.
    destruct (memory.run_seq (map SetClusterName later) b1) as [rs b'] eqn:Hrest.
    cbn -[Key] in *. destruct IH as [-> IH].
    split; [reflexivity|]. constructor; [|exact IH].
    exists e. split; [exact Hres|]. split.
    + intros value' Hv. by apply Hkind in Hv as [? _].
    + intros err Herr.
      rewrite (SetClusterName_unmarshalable b1 c' err Herr) in Hres.
      by injection Hres as <-.
Qed.

End ClusterNameOnce.

(** ** Updating the general settings *)

Section Update.

Context {ClusterConfigMarshaler : Marshaler ClusterConfigSpec}.
Variable CheckAndSetDefaults : ClusterConfig -> Result ClusterConfig.

Lemma lookup_Key key b i : memory.lookup key b = Some i -> Item.Key i = key.
Proof. by intros (e & _ & ->)%lookup_Some. Qed.

(** A run of [UpdateClusterConfig] that gets as far as the
    compare-and-swap: validation passes, the read finds a record that
    decodes, and the merged value marshals.  [env] is what other actors
    do after the read and after the compare-and-swap. *)
Lemma run_UpdateClusterConfig
    (env : list (memory.t -> memory.t)) (b : memory.t)
    (cc cc' current : ClusterConfig) (item : Item.t) (value : bytes) :
  CheckAndSetDefaults cc = inr cc' ->
  memory.lookup generalKey b = Some item ->
  Unmarshal (Item.Value item)
    [WithResourceID (Item.ID item); WithExpires (Item.Expires item)] = inr current ->
  let update := SetSessionRecording (GetSessionRecording cc') current in
  Marshal update = inr value ->
  let b1 := memory.interfere env b in
  let swap := memory.CompareAndSwap item (update_item update value) b1 in
  memory.run_with env (UpdateClusterConfig CheckAndSetDefaults cc) b
  = memory.MkOutcome
      match swap.1 with
      | inl err => if trace.IsCompareFailed err then Some try_again
                   else Some (trace.Wrap err)
      | inr _ => None
      end
      (memory.interfere (tail env) swap.2)
      [CallGet generalKey; CallCompareAndSwap item (update_item update value)].
Proof.
  intros Hcheck Hitem Hcurrent update Hvalue b1 swap.
  unfold UpdateClusterConfig. rewrite Hcheck.
  unfold getClusterConfig, Get, AddOptions. cbn -[Key].
  rewrite (Get_found _ _ _ Hitem). cbn -[Key].
  rewrite Hcurrent. cbn -[Key].
  fold update. rewrite Hvalue.
  subst swap b1. unfold update_item.
  cbn -[Key memory.CompareAndSwap memory.interfere].
  destruct (memory.CompareAndSwap _ _ _) as [[err|l] b2];
    cbn -[Key memory.interfere]; [|reflexivity].
  by destruct (trace.IsCompareFailed err).
Qed.

Lemma CompareAndSwap_same (b : memory.t) (item new : Item.t) (key : string) :
  memory.lookup key b = Some item ->
  memory.CompareAndSwap item new b
  = (inr (memory.lease key b),
     memory.write key (Item.Value new) (Item.Expires new) b).
Proof.
  intros (e & He & ->)%lookup_Some. unfold memory.CompareAndSwap; simpl.
  rewrite He. by rewrite decide_True.
Qed.

Lemma CompareAndSwap_stale (b : memory.t) (item item' new : Item.t) (key : string) :
  Item.Key item = key ->
  memory.lookup key b = Some item' ->
  Item.ID item' <> Item.ID item ->
  memory.CompareAndSwap item new b
  = (inl (trace.CompareFailed "revision does not match"), b).
Proof.
  intros <- (e & He & ->)%lookup_Some Hne. unfold memory.CompareAndSwap.
  rewrite He. by rewrite decide_False.
Qed.

(** With no other actor the compare-and-swap goes through. *)
Lemma run_UpdateClusterConfig_alone
    (b : memory.t) (cc cc' current : ClusterConfig) (item : Item.t)
    (value : bytes) :
  CheckAndSetDefaults cc = inr cc' ->
  memory.lookup generalKey b = Some item ->
  Unmarshal (Item.Value item)
    [WithResourceID (Item.ID item); WithExpires (Item.Expires item)] = inr current ->
  let update := SetSessionRecording (GetSessionRecording cc') current in
  Marshal update = inr value ->
  memory.run (UpdateClusterConfig CheckAndSetDefaults cc) b
  = memory.MkOutcome None
      (memory.write generalKey value (Expiry update) b)
      [CallGet generalKey; CallCompareAndSwap item (update_item update value)].
Proof.
  intros Hcheck Hitem Hcurrent update Hvalue. unfold memory.run.
  rewrite (run_UpdateClusterConfig [] b cc cc' current item value
             Hcheck Hitem Hcurrent Hvalue).
  cbn -[Key]. by rewrite (CompareAndSwap_same b item _ generalKey Hitem).
Qed.

(** C2: a successful [UpdateClusterConfig cc] read the current record,
    decoded it ([current], what [GetClusterConfig] returns on the store
    before), replaced its session-recording mode by that of the
    validated caller value and wrote the result with one
    compare-and-swap.  Nothing else of the caller's value is used: the
    other settings, the expiry and the revision identifier of the value
    written are those of [current], and so are the other settings and
    the expiry of the record read back afterwards. *)
Theorem UpdateClusterConfig_merges_session_recording
    `{!RoundTrip ClusterConfigSpec} (b : memory.t) (cc : ClusterConfig) :
  memory.result (memory.run (UpdateClusterConfig CheckAndSetDefaults cc) b) = None ->
  let o := memory.run (UpdateClusterConfig CheckAndSetDefaults cc) b in
  exists (cc' : ClusterConfig) (item : Item.t) (current : ClusterConfig)
         (value : bytes),
    CheckAndSetDefaults cc = inr cc' /\
    memory.lookup generalKey b = Some item /\
    memory.result (memory.run (GetClusterConfig []) b) = inr current /\
    let update := SetSessionRecording (GetSessionRecording cc') current in
    Marshal update = inr value /\
    memory.calls o
    = [CallGet generalKey; CallCompareAndSwap item (update_item update value)] /\
    memory.final o = memory.write generalKey value (Expiry update) b /\
    Content update
    = MkClusterConfigSpec (GetSessionRecording cc') (OtherSettings (Content current)) /\
    GetResourceID update = GetResourceID current /\
    Expiry update = Expiry current /\
    memory.result (memory.run (GetClusterConfig []) (memory.final o))
    = inr (MkResource
             (MkClusterConfigSpec (GetSessionRecording cc')
                                  (OtherSettings (Content current)))
             (memory.nextID b) (Expiry current)).
Proof.
  intros Hok o. subst o.
  destruct (CheckAndSetDefaults cc) as [err|cc'] eqn:Hcheck.
  { unfold UpdateClusterConfig in Hok. by rewrite Hcheck in Hok. }
  destruct (memory.lookup generalKey b) as [item|] eqn:Hitem.
  2:{ unfold UpdateClusterConfig, getClusterConfig, Get in Hok.
      rewrite Hcheck in Hok. cbn -[Key] in Hok.
      by rewrite (Get_missing _ _ Hitem) in Hok. }
  destruct (Unmarshal (Item.Value item)
              [WithResourceID (Item.ID item); WithExpires (Item.Expires item)])
    as [err|current] eqn:Hcurrent.
  { unfold UpdateClusterConfig, getClusterConfig, Get, AddOptions in Hok.
    rewrite Hcheck in Hok. cbn -[Key] in Hok.
    rewrite (Get_found _ _ _ Hitem) in Hok. cbn -[Key] in Hok.
    by rewrite Hcurrent in Hok. }
  destruct (Marshal (SetSessionRecording (GetSessionRecording cc') current))
    as [err|value] eqn:Hvalue.
  { unfold UpdateClusterConfig, getClusterConfig, Get, AddOptions in Hok.
    rewrite Hcheck in Hok. cbn -[Key] in Hok.
    rewrite (Get_found _ _ _ Hitem) in Hok. cbn -[Key] in Hok.
    rewrite Hcurrent in Hok. cbn -[Key] in Hok. by rewrite Hvalue in Hok. }
  exists cc', item, current, value.
  rewrite (run_UpdateClusterConfig_alone b cc cc' current item value
             Hcheck Hitem Hcurrent Hvalue).
  cbn [memory.result memory.final memory.calls].
  split; [reflexivity|]. split; [reflexivity|].
  rewrite !run_GetClusterConfig.
  cbn [memory.result]. rewrite Hitem, Hcurrent, lookup_write.
  split; [reflexivity|]. cbv zeta. split; [exact Hvalue|].
  do 5 (split; [reflexivity|]).
  cbn -[Key].
  destruct (round_trip _ _ Hvalue) as (base & Hbase & Hdecode).
  rewrite Hdecode. unfold apply_options; simpl.
  unfold SetExpiry, SetResourceID; simpl. by rewrite Hbase.
Qed.

(** C3: [UpdateClusterConfig] has read the record [item] (revision
    [Item.ID item]); before its compare-and-swap another actor changes
    the store so that the record at the key is [theirs], with another
    revision.  Then the update fails with the compare-failed error "...
    updated by another client, try again"; it has issued one read and
    one compare-and-swap and nothing more (no retry); and the store is
    as the other actor left it, so the record is [theirs]. *)
Theorem UpdateClusterConfig_lost_race
    (b : memory.t) (other : memory.t -> memory.t)
    (cc cc' current : ClusterConfig) (item theirs : Item.t) (value : bytes) :
  CheckAndSetDefaults cc = inr cc' ->
  memory.lookup generalKey b = Some item ->
  Unmarshal (Item.Value item)
    [WithResourceID (Item.ID item); WithExpires (Item.Expires item)] = inr current ->
  Marshal (SetSessionRecording (GetSessionRecording cc') current) = inr value ->
  memory.lookup generalKey (other b) = Some theirs ->
  Item.ID theirs <> Item.ID item ->
  let update := SetSessionRecording (GetSessionRecording cc') current in
  let o := memory.run_with [other] (UpdateClusterConfig CheckAndSetDefaults cc) b in
  memory.result o = Some try_again /\
  trace.IsCompareFailed try_again = true /\
  memory.calls o
  = [CallGet generalKey; CallCompareAndSwap item (update_item update value)] /\
  memory.final o = other b /\
  memory.lookup generalKey (memory.final o) = Some theirs.
Proof.
  intros Hcheck Hitem Hcurrent Hvalue Htheirs Hrev update o. subst o.
  rewrite (run_UpdateClusterConfig [other] b cc cc' current item value
             Hcheck Hitem Hcurrent Hvalue).
  cbn -[Key].
  rewrite (CompareAndSwap_stale (other b) item theirs _ generalKey
             (lookup_Key _ _ _ Hitem) Htheirs Hrev).
  cbn -[Key]. by repeat split.
Qed.

End Update.

(** ** Every operation is all or nothing *)

Section Atomic.

Context {ClusterNameMarshaler : Marshaler ClusterNameSpec}.
Context {StaticTokensMarshaler : Marshaler StaticTokensSpec}.
Context {AuthPreferenceMarshaler : Marshaler AuthPreferenceSpec}.
Context {ClusterConfigMarshaler : Marshaler ClusterConfigSpec}.
Variable CheckAndSetDefaults : ClusterConfig -> Result ClusterConfig.

(** [UpdateClusterConfig], whatever happens on the way. *)
Lemma run_UpdateClusterConfig_cases (cc : ClusterConfig) (b : memory.t) :
  let o := memory.run (UpdateClusterConfig CheckAndSetDefaults cc) b in
  (exists err, o = memory.MkOutcome (Some err) b []) \/
  (exists err, o = memory.MkOutcome (Some err) b [CallGet generalKey]) \/
  (exists item new,
     Item.Key item = generalKey /\
     o = memory.MkOutcome None (memory.effect (CallCompareAndSwap item new) b)
           [CallGet generalKey; CallCompareAndSwap item new]).
Proof.
  intros o. subst o.
  destruct (CheckAndSetDefaults cc) as [err|cc'] eqn:Hcheck.
  { left. exists (trace.Wrap err).
    unfold memory.run, UpdateClusterConfig. by rewrite Hcheck. }
  right.
  destruct (memory.lookup generalKey b) as [item|] eqn:Hitem.
  2:{ left. eexists. unfold memory.run, UpdateClusterConfig, getClusterConfig, Get.
      rewrite Hcheck. cbn -[Key]. rewrite (Get_missing _ _ Hitem). reflexivity. }
  destruct (Unmarshal (Item.Value item)
              [WithResourceID (Item.ID item); WithExpires (Item.Expires item)])
    as [err|current] eqn:Hcurrent.
  { left. eexists.
    unfold memory.run, UpdateClusterConfig, getClusterConfig, Get, AddOptions.
    rewrite Hcheck. cbn -[Key]. rewrite (Get_found _ _ _ Hitem). cbn -[Key].
    rewrite Hcurrent. reflexivity. }
  destruct (Marshal (SetSessionRecording (GetSessionRecording cc') current))
    as [err|value] eqn:Hvalue.
  { left. eexists.
    unfold memory.run, UpdateClusterConfig, getClusterConfig, Get, AddOptions.
    rewrite Hcheck. cbn -[Key]. rewrite (Get_found _ _ _ Hitem). cbn -[Key].
    rewrite Hcurrent. cbn -[Key]. rewrite Hvalue. reflexivity. }
  right.
  exists item,
    (update_item (SetSessionRecording (GetSessionRecording cc') current) value).
  split; [by eapply lookup_Key|].
  rewrite (run_UpdateClusterConfig_alone CheckAndSetDefaults b cc cc' current
             item value Hcheck Hitem Hcurrent Hvalue).
  unfold memory.effect.
  by rewrite (CompareAndSwap_same b item _ generalKey Hitem).
Qed.

Lemma get_all_or_nothing {A} (r : Result A) (key : string) (b : memory.t) :
  memory.all_or_nothing key b
    (memory.map_result error_of (memory.MkOutcome r b [CallGet key])).
Proof.
  unfold memory.all_or_nothing, memory.map_result; simpl.
  destruct r; simpl; [reflexivity|]. by left.
Qed.

Lemma delete_all_or_nothing (key message : string) (b : memory.t) :
  memory.all_or_nothing key b (memory.delete_outcome key message b).
Proof.
  unfold memory.all_or_nothing, memory.delete_outcome, memory.lookup; simpl.
  unfold memory.Delete.
  destruct (memory.records b !! key) eqn:He; simpl; [|reflexivity].
  right. exists (CallDelete key). split; [reflexivity|]. split; [reflexivity|].
  simpl. unfold memory.Delete. by rewrite He.
Qed.

Lemma put_all_or_nothing (marshaled : Result bytes) (item : bytes -> Item.t)
    (key : string) (b : memory.t) :
  (forall value, Item.Key (item value) = key) ->
  memory.all_or_nothing key b (memory.put_outcome marshaled item b).
Proof.
  intros Hkey. unfold memory.all_or_nothing, memory.put_outcome.
  destruct marshaled as [err|value]; simpl; [reflexivity|].
  right. exists (CallPut (item value)). repeat split. apply Hkey.
Qed.

(** On the in-memory store: a run that returns an error leaves the
    whole store as it was, and a run that succeeds changed the store by
    at most one backend call, a write on the operation's key. *)
Lemma operations_all_or_nothing (op : Operation) (b : memory.t) :
  let o := memory.run (perform CheckAndSetDefaults op) b in
  match memory.result o with
  | Some _ => memory.final o = b
  | None => memory.one_effect (key_of op) b o
  end.
Proof.
  intros o. subst o. change (memory.all_or_nothing (key_of op) b
    (memory.run (perform CheckAndSetDefaults op) b)).
  destruct op; cbn [perform key_of].
  - unfold memory.run. rewrite run_with_bind_Ret.
    fold (memory.run (GetClusterName opts) b).
    rewrite run_GetClusterName. apply get_all_or_nothing.
  - rewrite run_DeleteClusterName. apply delete_all_or_nothing.
  - rewrite run_SetClusterName. unfold memory.all_or_nothing.
    destruct (Marshal c) as [err|value]; simpl; [reflexivity|].
    unfold memory.Create, memory.lookup; cbn -[Key].
    destruct (memory.records b !! nameKey) eqn:He; cbn -[Key]; [reflexivity|].
    right. exists (CallCreate (created_item c value)).
    split; [reflexivity|]. split; [reflexivity|].
    cbn -[Key]. unfold memory.Create. cbn -[Key]. by rewrite He.
  - rewrite run_UpsertClusterName. by apply put_all_or_nothing.
  - unfold memory.run. rewrite run_with_bind_Ret.
    fold (memory.run GetStaticTokens b).
    rewrite run_GetStaticTokens. apply get_all_or_nothing.
  - rewrite run_SetStaticTokens. by apply put_all_or_nothing.
  - rewrite run_DeleteStaticTokens. apply delete_all_or_nothing.
  - unfold memory.run. rewrite run_with_bind_Ret.
    fold (memory.run GetAuthPreference b).
    rewrite run_GetAuthPreference. apply get_all_or_nothing.
  - rewrite run_SetAuthPreference. by apply put_all_or_nothing.
  - unfold memory.run. rewrite run_with_bind_Ret.
    fold (memory.run (GetClusterConfig opts) b).
    rewrite run_GetClusterConfig. apply get_all_or_nothing.
  - destruct (run_UpdateClusterConfig_cases cc b)
      as [[err ->]|[[err ->]|(item & new & Hkey & ->)]];
      unfold memory.all_or_nothing; simpl; try reflexivity.
    right. exists (CallCompareAndSwap item new). by repeat split.
  - rewrite run_DeleteClusterConfig. apply delete_all_or_nothing.
  - rewrite run_SetClusterConfig. by apply put_all_or_nothing.
Qed.

End Atomic.

(** ** What the unconditional writes hand to [Put] *)

Section Puts.

Context {ClusterNameMarshaler : Marshaler ClusterNameSpec}.
Context {StaticTokensMarshaler : Marshaler StaticTokensSpec}.
Context {AuthPreferenceMarshaler : Marshaler AuthPreferenceSpec}.
Context {ClusterConfigMarshaler : Marshaler ClusterConfigSpec}.

(** [UpsertClusterName] and [SetStaticTokens] put the value's expiry
    and its resource ID into the item. *)
Lemma Upsert_keeps_expiry
    (c : ClusterName) (t : StaticTokens) (v1 v2 : bytes) (b : memory.t) :
  Marshal c = inr v1 ->
  Marshal t = inr v2 ->
  memory.calls (memory.run (UpsertClusterName c) b)
  = [CallPut {| Item.Key := nameKey; Item.Value := v1;
                Item.Expires := Expiry c; Item.ID := GetResourceID c |}] /\
  memory.calls (memory.run (SetStaticTokens t) b)
  = [CallPut {| Item.Key := staticTokensKey; Item.Value := v2;
                Item.Expires := Expiry t; Item.ID := GetResourceID t |}].
Proof.
  intros H1 H2. rewrite run_UpsertClusterName, run_SetStaticTokens.
  unfold memory.put_outcome. by rewrite H1, H2.
Qed.

(** C6: where the code departs from it.  [SetAuthPreference] and
    [SetClusterConfig] pass the resource ID of the value on to [Put],
    but not its expiry.  The item they put has the zero time as
    [Expires], whatever [Expiry] of the value is, and so has the record
    in the store afterwards. *)
Theorem Set_without_expiry
    (preferences : AuthPreference) (c : ClusterConfig) (v1 v2 : bytes)
    (b : memory.t) :
  Marshal preferences = inr v1 ->
  Marshal c = inr v2 ->
  let o1 := memory.run (SetAuthPreference preferences) b in
  let o2 := memory.run (SetClusterConfig c) b in
  (memory.result o1 = None /\
   memory.calls o1
   = [CallPut {| Item.Key := authPreferenceKey; Item.Value := v1;
                 Item.Expires := 0; Item.ID := GetResourceID preferences |}] /\
   memory.lookup authPreferenceKey (memory.final o1)
   = Some {| Item.Key := authPreferenceKey; Item.Value := v1;
             Item.Expires := 0; Item.ID := memory.nextID b |}) /\
  (memory.result o2 = None /\
   memory.calls o2
   = [CallPut {| Item.Key := generalKey; Item.Value := v2;
                 Item.Expires := 0; Item.ID := GetResourceID c |}] /\
   memory.lookup generalKey (memory.final o2)
   = Some {| Item.Key := generalKey; Item.Value := v2;
             Item.Expires := 0; Item.ID := memory.nextID b |}).
Proof.
  intros H1 H2 o1 o2. subst o1 o2.
  rewrite run_SetAuthPreference, run_SetClusterConfig.
  unfold memory.put_outcome. rewrite H1, H2. cbn -[Key].
  by rewrite !lookup_write.
Qed.

End Puts.

(** ** Writing, then reading *)

Section Gets.

Context {ClusterNameMarshaler : Marshaler ClusterNameSpec}.
Context {StaticTokensMarshaler : Marshaler StaticTokensSpec}.
Context {AuthPreferenceMarshaler : Marshaler AuthPreferenceSpec}.
Context {ClusterConfigMarshaler : Marshaler ClusterConfigSpec}.

(** C5: where the code departs from it.  After [UpsertClusterName c]
    the record of the cluster name has the expiry of [c], but
    [GetClusterName] hands the unmarshaler the payload and the revision
    identifier of the record only: the expiry of the record is not
    attached, and values of the same payload read back the same
    whatever expiry they were written with.  [GetStaticTokens], after
    [SetStaticTokens t], hands the unmarshaler the revision identifier
    and the expiry of the record. *)
Theorem GetClusterName_omits_expiry
    (c : ClusterName) (t : StaticTokens) (v1 v2 : bytes) (b : memory.t) :
  Marshal c = inr v1 ->
  Marshal t = inr v2 ->
  let b1 := memory.final (memory.run (UpsertClusterName c) b) in
  let b2 := memory.final (memory.run (SetStaticTokens t) b) in
  (memory.lookup nameKey b1
   = Some {| Item.Key := nameKey; Item.Value := v1;
             Item.Expires := Expiry c; Item.ID := memory.nextID b |} /\
   (forall opts : list MarshalOption,
      memory.result (memory.run (GetClusterName opts) b1)
      = Unmarshal v1 (opts ++ [WithResourceID (memory.nextID b)])) /\
   (forall (c' : ClusterName) (opts : list MarshalOption),
      Marshal c' = inr v1 ->
      memory.result
        (memory.run (GetClusterName opts)
           (memory.final (memory.run (UpsertClusterName c') b)))
      = memory.result (memory.run (GetClusterName opts) b1))) /\
  (memory.lookup staticTokensKey b2
   = Some {| Item.Key := staticTokensKey; Item.Value := v2;
             Item.Expires := Expiry t; Item.ID := memory.nextID b |} /\
   memory.result (memory.run GetStaticTokens b2)
   = Unmarshal v2 [WithResourceID (memory.nextID b); WithExpires (Expiry t)]).
Proof.
  intros H1 H2 b1 b2. subst b1 b2.
  assert (Hname : forall (c' : ClusterName) (opts : list MarshalOption),
            Marshal c' = inr v1 ->
            memory.result
              (memory.run (GetClusterName opts)
                 (memory.final (memory.run (UpsertClusterName c') b)))
            = Unmarshal v1 (opts ++ [WithResourceID (memory.nextID b)])).
  { intros c' opts H'. rewrite run_UpsertClusterName. unfold memory.put_outcome.
    rewrite H'.
    cbn [memory.final memory.effect memory.Put snd
         Item.Key Item.Value Item.Expires].
    by rewrite run_GetClusterName, lookup_write. }
  split; [split; [|split]|split].
  - rewrite run_UpsertClusterName. unfold memory.put_outcome. rewrite H1.
    cbn [memory.final memory.effect memory.Put snd
         Item.Key Item.Value Item.Expires].
    apply lookup_write.
  - intros opts. by apply Hname.
  - intros c' opts H'. by rewrite !Hname.
  - rewrite run_SetStaticTokens. unfold memory.put_outcome. rewrite H2.
    cbn [memory.final memory.effect memory.Put snd
         Item.Key Item.Value Item.Expires].
    apply lookup_write.
  - rewrite run_SetStaticTokens. unfold memory.put_outcome. rewrite H2.
    cbn [memory.final memory.effect memory.Put snd
         Item.Key Item.Value Item.Expires].
    by rewrite run_GetStaticTokens, lookup_write.
Qed.

End Gets.

Section RoundTrips.

Context {ClusterNameMarshaler : Marshaler ClusterNameSpec}.
Context {StaticTokensMarshaler : Marshaler StaticTokensSpec}.
Context {AuthPreferenceMarshaler : Marshaler AuthPreferenceSpec}.
Context {ClusterConfigMarshaler : Marshaler ClusterConfigSpec}.
Context {ClusterNameRoundTrip : RoundTrip ClusterNameSpec}.
Context {StaticTokensRoundTrip : RoundTrip StaticTokensSpec}.
Context {AuthPreferenceRoundTrip : RoundTrip AuthPreferenceSpec}.
Context {ClusterConfigRoundTrip : RoundTrip ClusterConfigSpec}.

(** Decoding with both annotations of the record. *)
Lemma decode_annotated {S} `{RoundTrip S}
    (v : Resource S) (value : bytes) (id : Z) (expires : Time) :
  Marshal v = inr value ->
  Unmarshal value [WithResourceID id; WithExpires expires]
  = inr (MkResource (Content v) id expires).
Proof.
  intros (base & Hbase & Hdecode)%round_trip. rewrite Hdecode.
  unfold apply_options; simpl. unfold SetExpiry, SetResourceID; simpl.
  by rewrite Hbase.
Qed.

(** Decoding with the revision identifier only: the expiry is what the
    codec makes of the payload. *)
Lemma decode_revision_only {S} `{RoundTrip S}
    (v : Resource S) (value : bytes) (id : Z) :
  Marshal v = inr value ->
  exists r : Resource S,
    Unmarshal value [WithResourceID id] = inr r /\
    Content r = Content v /\ GetResourceID r = id.
Proof.
  intros (base & Hbase & Hdecode)%round_trip. rewrite Hdecode.
  eexists. split; [reflexivity|]. by split.
Qed.

(** X21: with codecs that keep the round-trip law: for the static
    tokens, the authentication preference and the general settings, a
    [Set] of [v] followed by the [Get] returns the
    content of [v] with the revision identifier and the expiry of the
    record just written, both attached by the [Get].  For the cluster
    name, after [UpsertClusterName] or a first [SetClusterName],
    [GetClusterName] hands the unmarshaler the revision identifier of
    the record just written and nothing else: the value returned has
    the content of [v] and that revision identifier. *)
Theorem Set_then_Get (b : memory.t) :
  (forall (v : StaticTokens) (value : bytes),
     Marshal v = inr value ->
     let b1 := memory.final (memory.run (SetStaticTokens v) b) in
     exists item : Item.t,
       memory.lookup staticTokensKey b1 = Some item /\
       Item.Value item = value /\ Item.ID item = memory.nextID b /\
       reads_back v item (memory.result (memory.run GetStaticTokens b1))) /\
  (forall (v : AuthPreference) (value : bytes),
     Marshal v = inr value ->
     let b1 := memory.final (memory.run (SetAuthPreference v) b) in
     exists item : Item.t,
       memory.lookup authPreferenceKey b1 = Some item /\
       Item.Value item = value /\ Item.ID item = memory.nextID b /\
       reads_back v item (memory.result (memory.run GetAuthPreference b1))) /\
  (forall (v : ClusterConfig) (value : bytes),
     Marshal v = inr value ->
     let b1 := memory.final (memory.run (SetClusterConfig v) b) in
     exists item : Item.t,
       memory.lookup generalKey b1 = Some item /\
       Item.Value item = value /\ Item.ID item = memory.nextID b /\
       reads_back v item (memory.result (memory.run (GetClusterConfig []) b1))) /\
  (forall (v : ClusterName) (value : bytes),
     Marshal v = inr value ->
     let b1 := memory.final (memory.run (UpsertClusterName v) b) in
     exists item : Item.t,
       memory.lookup nameKey b1 = Some item /\
       Item.Value item = value /\ Item.ID item = memory.nextID b /\
       reads_back_revision v item
         (memory.result (memory.run (GetClusterName []) b1))) /\
  (forall (v : ClusterName) (value : bytes),
     Marshal v = inr value ->
     memory.lookup nameKey b = None ->
     let b1 := memory.final (memory.run (SetClusterName v) b) in
     exists item : Item.t,
       memory.lookup nameKey b1 = Some item /\
       Item.Value item = value /\ Item.ID item = memory.nextID b /\
       reads_back_revision v item
         (memory.result (memory.run (GetClusterName []) b1))).
Proof.
  assert (Hname : forall (v : ClusterName) (value : bytes),
            Marshal v = inr value ->
            let b1 := memory.write nameKey value (Expiry v) b in
            exists item : Item.t,
              memory.lookup nameKey b1 = Some item /\
              Item.Value item = value /\ Item.ID item = memory.nextID b /\
              reads_back_revision v item
                (memory.result (memory.run (GetClusterName []) b1))).
  { intros v value Hvalue b1. subst b1.
    destruct (decode_revision_only v value (memory.nextID b) Hvalue)
      as (r & Hr & Hcontent & Hid).
    eexists. split; [apply lookup_write|]. do 2 (split; [reflexivity|]).
    rewrite run_GetClusterName, lookup_write. cbn -[Key].
    split; [reflexivity|]. by exists r. }
  repeat split.
  - intros v value Hvalue b1. subst b1.
    rewrite run_SetStaticTokens. unfold memory.put_outcome. rewrite Hvalue.
    cbn [memory.final memory.effect memory.Put snd Item.Key Item.Value Item.Expires].
    eexists. split; [apply lookup_write|]. do 2 (split; [reflexivity|]).
    rewrite run_GetStaticTokens, lookup_write. cbn -[Key].
    apply (decode_annotated v value _ _ Hvalue).
  - intros v value Hvalue b1. subst b1.
    rewrite run_SetAuthPreference. unfold memory.put_outcome. rewrite Hvalue.
    cbn [memory.final memory.effect memory.Put snd Item.Key Item.Value Item.Expires].
    eexists. split; [apply lookup_write|]. do 2 (split; [reflexivity|]).
    rewrite run_GetAuthPreference, lookup_write. cbn -[Key].
    apply (decode_annotated v value _ _ Hvalue).
  - intros v value Hvalue b1. subst b1.
    rewrite run_SetClusterConfig. unfold memory.put_outcome. rewrite Hvalue.
    cbn [memory.final memory.effect memory.Put snd Item.Key Item.Value Item.Expires].
    eexists. split; [apply lookup_write|]. do 2 (split; [reflexivity|]).
    rewrite run_GetClusterConfig, lookup_write. cbn -[Key].
    unfold reads_back. by rewrite (decode_annotated v value _ _ Hvalue).
  - intros v value Hvalue b1. subst b1.
    rewrite run_UpsertClusterName. unfold memory.put_outcome. rewrite Hvalue.
    apply (Hname v value Hvalue).
  - intros v value Hvalue Habsent b1. subst b1.
    rewrite (SetClusterName_absent b v value Habsent Hvalue).
    apply (Hname v value Hvalue).
Qed.

End RoundTrips.

(** ** The sample codec keeps the round-trip law *)

Lemma bytes_to_pos_to_bytes (p : positive) :
  example.bytes_to_pos (example.pos_to_bytes p) = p.
Proof. induction p as [q IH|q IH|]; simpl; by rewrite ?IH. Qed.

Lemma content_codec_Unmarshal {S} `{Countable S}
    (c : S) (opts : list MarshalOption) :
  Unmarshal (example.pos_to_bytes (encode c)) opts
  = inr (apply_options opts (MkResource c 0 0)).
Proof. simpl. by rewrite bytes_to_pos_to_bytes, decode_encode. Qed.

#[global] Instance content_codec_round_trip {S} `{Countable S} : RoundTrip S.
Proof.
  intros v b [= <-]. exists (MkResource (Content v) 0 0).
  split; [reflexivity|]. intros opts. apply content_codec_Unmarshal.
Qed.

(** ** The properties on the sample values *)

Import example.

Lemma UpdateClusterConfig_validation_first_witness :
  example.CheckAndSetDefaults example.bad_config
  = inl (trace.BadParameter "session recording mode is not valid") /\
  forall (env : list (memory.t -> memory.t)) (b : memory.t),
    memory.run_with env
      (UpdateClusterConfig example.CheckAndSetDefaults example.bad_config) b
    = memory.MkOutcome
        (Some (trace.Wrap (trace.BadParameter "session recording mode is not valid")))
        b [].
Proof.
  split; [reflexivity|].
  apply (UpdateClusterConfig_validation_first example.CheckAndSetDefaults
           example.bad_config).
  reflexivity.
Defined.

(** The scenario of the spec: the name is set to "prod"; setting it to
    "staging" (or to "prod" again) fails and changes nothing. *)
Lemma SetClusterName_once_witness :
  let first := memory.run (SetClusterName prod) memory.empty in
  memory.result first = None /\
  (memory.run_seq (map SetClusterName [staging; prod]) (memory.final first)).2
  = memory.final first.
Proof.
  intros first.
  destruct (SetClusterName_once (ClusterNameMarshaler := content_codec _)
              memory.empty prod
              (pos_to_bytes (encode (Content prod))) eq_refl eq_refl)
    as (Hresult & _ & _ & Hlater).
  split; [exact Hresult|]. apply (Hlater [staging; prod]).
Defined.

(** C1 as stated fails for a value the codec does not marshal.  With a
    codec that refuses the empty name: the name is set to "prod"; a
    second [SetClusterName], with the empty name, fails with the wrapped
    error of the codec, which is not [AlreadyExists], and without a
    call to the backend. *)
Lemma SetClusterName_codec_error_first :
  let first := memory.run (SetClusterName (ClusterNameMarshaler := picky_codec) prod)
                 memory.empty in
  let second := memory.run
                  (SetClusterName (ClusterNameMarshaler := picky_codec) unnamed)
                  (memory.final first) in
  memory.result first = None /\
  memory.result second
  = Some (trace.Wrap (trace.BadParameter "cluster name is empty")) /\
  memory.calls second = [] /\
  ~ (exists e : trace.error,
       memory.result second = Some e /\ trace.IsAlreadyExists e = true).
Proof.
  intros first second.
  split; [vm_compute; reflexivity|].
  assert (Hsecond : memory.result second
                    = Some (trace.Wrap (trace.BadParameter "cluster name is empty")))
    by reflexivity.
  split; [exact Hsecond|]. split; [reflexivity|].
  intros (e & He & Hkind). rewrite Hsecond in He. injection He as <-.
  discriminate Hkind.
Qed.

(** The scenario of the spec: the settings are stored with mode "node";
    an update to "proxy" whose value carries other settings as well
    changes the mode and nothing else. *)
Lemma UpdateClusterConfig_merges_session_recording_witness :
  let o := memory.run (UpdateClusterConfig CheckAndSetDefaults proxy_config)
             node_store in
  memory.result o = None /\
  memory.result (memory.run (GetClusterConfig []) node_store)
  = inr (MkResource (MkClusterConfigSpec "node" settings) 1 0) /\
  memory.result (memory.run (GetClusterConfig []) (memory.final o))
  = inr (MkResource (MkClusterConfigSpec "proxy" settings) 2 0).
Proof.
  intros o. subst o.
  assert (Hok : memory.result
                  (memory.run (UpdateClusterConfig CheckAndSetDefaults proxy_config)
                     node_store) = None) by (vm_compute; reflexivity).
  split; [exact Hok|].
  destruct (UpdateClusterConfig_merges_session_recording
              (ClusterConfigMarshaler := content_codec _)
              CheckAndSetDefaults node_store proxy_config Hok)
    as (cc' & item & current & value & Hcheck & _ & Hget & _ & _ & _ & _ & _ & _
        & Hafter).
  assert (Hbefore : memory.result (memory.run (GetClusterConfig []) node_store)
                    = inr (MkResource (MkClusterConfigSpec "node" settings) 1 0))
    by (vm_compute; reflexivity).
  split; [exact Hbefore|].
  rewrite Hbefore in Hget.
  injection Hget as <-. injection Hcheck as <-. exact Hafter.
Defined.

Lemma UpdateClusterConfig_lost_race_witness :
  let o := memory.run_with [rival]
             (UpdateClusterConfig CheckAndSetDefaults proxy_config) node_store in
  memory.result o = Some try_again /\
  memory.final o = rival node_store /\
  memory.result (memory.run (GetClusterConfig []) (memory.final o))
  = inr (MkResource (MkClusterConfigSpec "off" []) 2 0).
Proof.
  intros o.
  destruct (UpdateClusterConfig_lost_race
              (ClusterConfigMarshaler := content_codec _)
              CheckAndSetDefaults node_store rival proxy_config proxy_config
              (MkResource (MkClusterConfigSpec "node" settings) 1 0)
              {| Item.Key := generalKey;
                 Item.Value := pos_to_bytes (encode (Content node_config));
                 Item.Expires := 0; Item.ID := 1 |}
              {| Item.Key := generalKey;
                 Item.Value := pos_to_bytes (encode (Content off_config));
                 Item.Expires := 0; Item.ID := 2 |}
              (pos_to_bytes (encode (MkClusterConfigSpec "proxy" settings))))
    as (Hresult & _ & _ & Hfinal & _).
  - reflexivity.
  - vm_compute; reflexivity.
  - vm_compute; reflexivity.
  - reflexivity.
  - vm_compute; reflexivity.
  - simpl. lia.
  - split; [exact Hresult|]. split; [exact Hfinal|].
    vm_compute; reflexivity.
Defined.

Lemma Set_without_expiry_witness :
  Expiry preference = 3000 /\
  Expiry node_config = 4000 /\
  Item.Expires <$> memory.lookup authPreferenceKey
    (memory.final (memory.run (SetAuthPreference preference) memory.empty))
  = Some 0 /\
  Item.Expires <$> memory.lookup generalKey
    (memory.final (memory.run (SetClusterConfig node_config) memory.empty))
  = Some 0.
Proof.
  destruct (Set_without_expiry
              (AuthPreferenceMarshaler := content_codec _)
              (ClusterConfigMarshaler := content_codec _)
              preference node_config
              (pos_to_bytes (encode (Content preference)))
              (pos_to_bytes (encode (Content node_config)))
              memory.empty eq_refl eq_refl)
    as [(_ & _ & Hauth) (_ & _ & Hgeneral)].
  split; [reflexivity|]. split; [reflexivity|].
  rewrite Hauth, Hgeneral. split; reflexivity.
Defined.

Lemma GetClusterName_omits_expiry_witness :
  let b1 := memory.final (memory.run (UpsertClusterName prod) memory.empty) in
  let b2 := memory.final (memory.run (SetStaticTokens tokens) memory.empty) in
  (memory.lookup nameKey b1
   = Some {| Item.Key := nameKey;
             Item.Value := pos_to_bytes (encode (Content prod));
             Item.Expires := 1000; Item.ID := 1 |} /\
   memory.result (memory.run (GetClusterName []) b1)
   = inr (MkResource (Content prod) 1 0)) /\
  (memory.lookup staticTokensKey b2
   = Some {| Item.Key := staticTokensKey;
             Item.Value := pos_to_bytes (encode (Content tokens));
             Item.Expires := 2000; Item.ID := 1 |} /\
   memory.result (memory.run GetStaticTokens b2)
   = inr (MkResource (Content tokens) 1 2000)).
Proof.
  intros b1 b2. subst b1 b2.
  destruct (GetClusterName_omits_expiry
              (ClusterNameMarshaler := content_codec _)
              (StaticTokensMarshaler := content_codec _)
              prod tokens
              (pos_to_bytes (encode (Content prod)))
              (pos_to_bytes (encode (Content tokens)))
              memory.empty eq_refl eq_refl)
    as [(Hname & Hget & _) (Htokens & Hread)].
  split; split.
  - exact Hname.
  - rewrite (Hget []), content_codec_Unmarshal. reflexivity.
  - exact Htokens.
  - rewrite Hread, content_codec_Unmarshal. reflexivity.
Defined.

Lemma Set_then_Get_witness :
  memory.result
    (memory.run GetStaticTokens
       (memory.final (memory.run (SetStaticTokens tokens) memory.empty)))
  = inr (MkResource (Content tokens) 1 2000).
Proof.
  destruct (proj1 (Set_then_Get
                     (ClusterNameMarshaler := content_codec _)
                     (StaticTokensMarshaler := content_codec _)
                     (AuthPreferenceMarshaler := content_codec _)
                     (ClusterConfigMarshaler := content_codec _)
                     memory.empty)
              tokens (pos_to_bytes (encode (Content tokens))) eq_refl)
    as (item & Hitem & _ & _ & Hread).
  unfold reads_back in Hread. rewrite Hread.
  assert (Hstored : memory.lookup staticTokensKey
                      (memory.final (memory.run (SetStaticTokens tokens) memory.empty))
                    = Some {| Item.Key := staticTokensKey;
                              Item.Value := pos_to_bytes (encode (Content tokens));
                              Item.Expires := 2000; Item.ID := 1 |})
    by (vm_compute; reflexivity).
  rewrite Hstored in Hitem. injection Hitem as <-. reflexivity.
Defined.

(** What the missing option costs depends on the codec.  With the
    sample codec, whose payload is the content alone (it keeps the
    round-trip law, see [content_codec_round_trip]), "prod" is upserted
    with expiry [1000]: the record in the backend has that expiry, but
    the value [GetClusterName] returns does not carry it.  A codec whose
    payload holds the expiry as well gives it back from the payload. *)
Lemma GetClusterName_without_expiry :
  let b1 := memory.final (memory.run (UpsertClusterName prod) memory.empty) in
  exists (item : Item.t) (r : ClusterName),
    memory.lookup nameKey b1 = Some item /\
    memory.result (memory.run (GetClusterName []) b1) = inr r /\
    Item.Expires item = 1000 /\
    Expiry r = 0 /\
    ~ reads_back prod item (memory.result (memory.run (GetClusterName []) b1)).
Proof.
  intros b1.
  exists {| Item.Key := nameKey;
            Item.Value := pos_to_bytes (encode (Content prod));
            Item.Expires := 1000; Item.ID := 1 |},
         (MkResource (Content prod) 1 0).
  assert (Hread : memory.result (memory.run (GetClusterName []) b1)
                  = inr (MkResource (Content prod) 1 0))
    by (vm_compute; reflexivity).
  split; [vm_compute; reflexivity|]. split; [exact Hread|].
  split; [reflexivity|]. split; [reflexivity|].
  unfold reads_back. rewrite Hread. intros [=].
Qed.

End local_props.

(* ================================================================== *)
(** * Properties of the signer shim *)
(* ================================================================== *)

Module utils_props.

Import utils.

Lemma rsa_key_test (s : Signer) :
  negb (PublicKey_Type s =? ssh.KeyAlgoRSA)%string
  && negb (PublicKey_Type s =? ssh.CertAlgoRSAv01)%string = false
  <-> rsa_key s.
Proof.
  unfold rsa_key.
  destruct (String.eqb_spec (PublicKey_Type s) ssh.KeyAlgoRSA) as [->|H1];
    destruct (String.eqb_spec (PublicKey_Type s) ssh.CertAlgoRSAv01) as [H2|H2];
    simpl; split; intros H; try done; auto.
  by destruct H.
Qed.

(** The three ways out of [AlgSigner] that return the signer itself. *)
Lemma AlgSigner_same (s : Signer) (alg : string) :
  alg = "" \/ ~ rsa_key s \/ as_AlgorithmSigner s = None ->
  AlgSigner s alg = s.
Proof.
  unfold AlgSigner. intros Hcase.
  destruct (String.eqb_spec alg "") as [->|Halg]; [reflexivity|].
  destruct (negb (PublicKey_Type s =? ssh.KeyAlgoRSA)%string
            && negb (PublicKey_Type s =? ssh.CertAlgoRSAv01)%string) eqn:Hkey;
    [reflexivity|].
  apply rsa_key_test in Hkey.
  destruct Hcase as [?|[?|Hnone]]; [done..|]. by rewrite Hnone.
Qed.

(** The remaining way out returns the wrapper. *)
Lemma AlgSigner_wraps (s : Signer) (alg : string) (a : ssh.AlgorithmSigner) :
  alg <> "" -> rsa_key s -> as_AlgorithmSigner s = Some a ->
  AlgSigner s alg = Fixed {| AlgorithmSigner := a; alg := alg |}.
Proof.
  unfold AlgSigner. intros Halg Hrsa%rsa_key_test Has.
  destruct (String.eqb_spec alg "") as [->|_]; [done|].
  by rewrite Hrsa, Has.
Qed.

(** C9: [AlgSigner s alg] is [s] itself when [alg] is empty, when the
    key of [s] is neither an RSA key nor an RSA certificate, or when
    [s] has no [SignWithAlgorithm] method; in the one remaining case
    ([alg] not empty, an RSA key, and [s] an [ssh.AlgorithmSigner]) it is
    the wrapper around [s] with [alg]. *)
Theorem AlgSigner_identity_or_wrapper (s : Signer) (alg : string) :
  (alg = "" \/ ~ rsa_key s \/ as_AlgorithmSigner s = None ->
   AlgSigner s alg = s) /\
  (forall a : ssh.AlgorithmSigner,
     alg <> "" -> rsa_key s -> as_AlgorithmSigner s = Some a ->
     AlgSigner s alg = Fixed {| AlgorithmSigner := a; alg := alg |}) /\
  (AlgSigner s alg = s \/
   exists a : ssh.AlgorithmSigner,
     alg <> "" /\ rsa_key s /\ as_AlgorithmSigner s = Some a /\
     AlgSigner s alg = Fixed {| AlgorithmSigner := a; alg := alg |}).
Proof.
  split; [apply AlgSigner_same|]. split; [apply AlgSigner_wraps|].
  destruct (String.eqb_spec alg "") as [Halg|Halg].
  { left. apply AlgSigner_same. by left. }
  destruct (negb (PublicKey_Type s =? ssh.KeyAlgoRSA)%string
            && negb (PublicKey_Type s =? ssh.CertAlgoRSAv01)%string) eqn:Hkey.
  { left. apply AlgSigner_same. right. left.
    intros Hrsa%rsa_key_test. congruence. }
  apply rsa_key_test in Hkey.
  destruct (as_AlgorithmSigner s) as [a|] eqn:Has.
  - right. exists a. repeat split; try done. by apply AlgSigner_wraps.
  - left. apply AlgSigner_same. by right; right.
Qed.

(** C10: the wrapper made by [AlgSigner] around a signer with methods
    [a], with algorithm [A]: [Sign] is [a]'s [SignWithAlgorithm] with
    [A]; [SignWithAlgorithm] is [a]'s with [A] when the caller's
    algorithm is empty, and with the caller's algorithm otherwise. *)
Theorem fixedAlgorithmSigner_delegates
    (s : Signer) (a : ssh.AlgorithmSigner) (A alg' : string)
    (rand : ssh.Reader) (data : bytes) :
  A <> "" ->
  rsa_key s ->
  as_AlgorithmSigner s = Some a ->
  exists w : ssh.AlgorithmSigner,
    as_AlgorithmSigner (AlgSigner s A) = Some w /\
    Sign (AlgSigner s A) rand data = ssh.SignWithAlgorithm a rand data A /\
    ssh.Sign w rand data = ssh.SignWithAlgorithm a rand data A /\
    ssh.SignWithAlgorithm w rand data "" = ssh.SignWithAlgorithm a rand data A /\
    (alg' <> "" ->
     ssh.SignWithAlgorithm w rand data alg'
     = ssh.SignWithAlgorithm a rand data alg').
Proof.
  intros HA Hrsa Has.
  rewrite (AlgSigner_wraps s A a HA Hrsa Has). simpl.
  eexists. split; [reflexivity|]. simpl.
  do 3 (split; [reflexivity|]).
  intros Halg. unfold fixed_SignWithAlgorithm; simpl.
  by destruct (String.eqb_spec alg' "").
Qed.

Import example.

Lemma AlgSigner_identity_or_wrapper_witness :
  AlgSigner rsa_signer "" = rsa_signer /\
  AlgSigner ed25519_signer "rsa-sha2-512" = ed25519_signer /\
  AlgSigner plain_rsa_signer "rsa-sha2-512" = plain_rsa_signer /\
  AlgSigner rsa_signer "rsa-sha2-512"
  = Fixed {| AlgorithmSigner := rsa_methods; alg := "rsa-sha2-512" |}.
Proof.
  split; [|split; [|split]].
  - apply (proj1 (AlgSigner_identity_or_wrapper rsa_signer "")).
    left. reflexivity.
  - apply (proj1 (AlgSigner_identity_or_wrapper ed25519_signer "rsa-sha2-512")).
    right. left. intros [H|H]; discriminate H.
  - apply (proj1 (AlgSigner_identity_or_wrapper plain_rsa_signer "rsa-sha2-512")).
    right. right. reflexivity.
  - apply (proj1 (proj2 (AlgSigner_identity_or_wrapper rsa_signer "rsa-sha2-512"))).
    + discriminate.
    + left. reflexivity.
    + reflexivity.
Defined.

Lemma fixedAlgorithmSigner_delegates_witness :
  Sign (AlgSigner rsa_signer "rsa-sha2-512") [] [Byte.x68; Byte.x69]
  = inr (ssh.MkSignature "rsa-sha2-512" [Byte.x68; Byte.x69]) /\
  Sign rsa_signer [] [Byte.x68; Byte.x69]
  = inr (ssh.MkSignature "ssh-rsa" [Byte.x68; Byte.x69]).
Proof.
  destruct (fixedAlgorithmSigner_delegates rsa_signer rsa_methods
              "rsa-sha2-512" "rsa-sha2-256" [] [Byte.x68; Byte.x69])
    as (w & _ & Hsign & _).
  - discriminate.
  - left. reflexivity.
  - reflexivity.
  - split; [exact Hsign|reflexivity].
Defined.

End utils_props.

(* ================================================================== *)
(** * The service on any backend *)
(* ================================================================== *)

Module local_more.

Import backend services local.
Import local_props.

Lemma IsNotFound_kind (e : trace.error) :
  trace.IsNotFound e = true -> trace.kind e = trace.KNotFound.
Proof. unfold trace.IsNotFound. by intros ?%bool_decide_eq_true. Qed.

Lemma IsCompareFailed_kind (e : trace.error) :
  trace.IsCompareFailed e = true -> trace.kind e = trace.KCompareFailed.
Proof. unfold trace.IsCompareFailed. by intros ?%bool_decide_eq_true. Qed.

(** The in-memory runs of the claims are runs of this implementation. *)
Lemma run_in_memory {A} (p : Prog A) :
  forall b : memory.t,
    impl.result (impl.run impl.in_memory p b) = memory.result (memory.run p b) /\
    impl.final (impl.run impl.in_memory p b) = memory.final (memory.run p b) /\
    impl.calls (impl.run impl.in_memory p b) = memory.calls (memory.run p b).
Proof.
  unfold memory.run, impl.calls.
  induction p as [a|key k IH|i k IH|i k IH|e n k IH|key k IH];
    intros b;
    cbn -[memory.Get memory.Create memory.Put memory.CompareAndSwap memory.Delete];
    [done|..].
  - destruct (memory.Get key b) as [r b']; simpl.
    destruct (IH r b') as (H1 & H2 & H3).
    split; [exact H1|]. split; [exact H2|]. f_equal. exact H3.
  - destruct (memory.Create i b) as [r b']; simpl.
    destruct (IH r b') as (H1 & H2 & H3).
    split; [exact H1|]. split; [exact H2|]. f_equal. exact H3.
  - destruct (memory.Put i b) as [r b']; simpl.
    destruct (IH r b') as (H1 & H2 & H3).
    split; [exact H1|]. split; [exact H2|]. f_equal. exact H3.
  - destruct (memory.CompareAndSwap e n b) as [r b']; simpl.
    destruct (IH r b') as (H1 & H2 & H3).
    split; [exact H1|]. split; [exact H2|]. f_equal. exact H3.
  - destruct (memory.Delete key b) as [r b']; simpl.
    destruct (IH r b') as (H1 & H2 & H3).
    split; [exact H1|]. split; [exact H2|]. f_equal. exact H3.
Qed.

Section AnyBackend.

Context {ClusterNameMarshaler : Marshaler ClusterNameSpec}.
Context {StaticTokensMarshaler : Marshaler StaticTokensSpec}.
Context {AuthPreferenceMarshaler : Marshaler AuthPreferenceSpec}.
Context {ClusterConfigMarshaler : Marshaler ClusterConfigSpec}.
Variable CheckAndSetDefaults : ClusterConfig -> Result ClusterConfig.
Context {S : Type} (h : impl.t S).

Ltac run_any :=
  unfold perform, GetClusterName, DeleteClusterName, SetClusterName,
    UpsertClusterName, GetStaticTokens, SetStaticTokens, DeleteStaticTokens,
    GetAuthPreference, SetAuthPreference, GetClusterConfig, UpdateClusterConfig,
    getClusterConfig, DeleteClusterConfig, SetClusterConfig,
    Get, Create, Put, CompareAndSwap, Delete, AddOptions;
  repeat (cbn -[Key]; try case_match).

(** X1: whatever the backend is and however it answers, an operation
    issues nothing, one read, one write, or one read followed by one
    write, all on its own key; a read operation issues exactly its one
    read. *)
Theorem calls_read_then_write (op : Operation) (s : S) :
  let cs := impl.calls (impl.run h (perform CheckAndSetDefaults op) s) in
  impl.read_then_write (key_of op) cs /\
  if impl.writes op then True else cs = [CallGet (key_of op)].
Proof.
  destruct op; run_any.
  all: unfold impl.read_then_write, impl.calls; cbn -[Key].
  all: split; [|done].
  all: try (by left).
  all: try (by right; left).
  all: try (right; right; eexists; split; [|split; [|by (left + right)]]; done).
Qed.

Ltac kinds :=
  repeat match goal with
         | H : trace.IsNotFound _ = true |- _ => apply IsNotFound_kind in H
         | H : trace.IsCompareFailed _ = true |- _ => apply IsCompareFailed_kind in H
         end.

(** X2: whatever the backend is, an error answer is the last thing an
    operation hears from it: the operation then fails, and with an error
    of the same kind as the backend's (so the caller's [IsNotFound],
    [IsAlreadyExists] and [IsCompareFailed] tests see the backend's
    verdict). *)
Theorem backend_error_ends_operation (op : Operation) (s : S) :
  let o := impl.run h (perform CheckAndSetDefaults op) s in
  impl.stops_at_failure (impl.result o) (impl.exchanges o).
Proof.
  destruct op; run_any.
  all: intros [|x [|y before]] after call answer failed Heq Hfail;
    simplify_eq/=; kinds.
  all: try (split; [done|]; eexists; split; [done|]; simpl; congruence).
  all: try (by destruct before).
Qed.

Ltac acknowledged :=
  unfold impl.acknowledged_write;
  first [ by eexists [], _, _ | by eexists [_], _, _ ].

Ltac not_acknowledged :=
  let before := fresh "before" in
  intros (before & ? & ? & ? & ? & ?);
  destruct before as [|? [|? [|? ?]]]; simplify_eq/=.

(** X3: whatever the backend is, an operation that is meant to change
    the store reports success exactly when its last exchange with the
    backend is a write that the backend answered without an error; a
    read that reports success had its one read answered with an item. *)
Theorem success_is_acknowledged (op : Operation) (s : S) :
  let o := impl.run h (perform CheckAndSetDefaults op) s in
  if impl.writes op
  then impl.result o = None <-> impl.acknowledged_write (impl.exchanges o)
  else impl.result o = None ->
       exists item : Item.t,
         impl.exchanges o = [(CallGet (key_of op), impl.GotItem (inr item))].
Proof.
  destruct op; run_any.
  all: try (intros _; by eexists).
  all: try done.
  all: split; [intros ?; try done; acknowledged|].
  all: try done.
  all: not_acknowledged.
Qed.

(** X4: whatever the backend is, each of the five operations that
    write a whole value ([SetClusterName], [UpsertClusterName],
    [SetStaticTokens], [SetAuthPreference], [SetClusterConfig]) either
    cannot marshal the value, and then returns the wrapped codec error
    without a single call, or issues exactly one call, a write that
    carries the marshaled payload. *)
Theorem full_write_sends_the_payload (op : Operation) (s : S) :
  let o := impl.run h (perform CheckAndSetDefaults op) s in
  match impl.marshaled op with
  | None => True
  | Some (inl err) =>
      impl.exchanges o = [] /\ impl.final o = s /\
      impl.result o = Some (trace.Wrap err)
  | Some (inr value) =>
      exists (w : Call) (a : impl.Answer),
        impl.exchanges o = [(w, a)] /\
        impl.carried w = Some value /\
        impl.target w = key_of op
  end.
Proof.
  destruct op; cbn [impl.marshaled]; try done.
  all: run_any; simplify_eq/=.
  all: try done.
  all: by eexists _, _.
Qed.

(** X5: whatever the backend is, [UpdateClusterConfig] asks for a
    compare-and-swap only after validation, the read, the decoding of
    the item read and the marshaling of the merged value have all
    succeeded; the item it expects is then the very item the backend
    gave it, and the replacement is the merged value under the key of
    the general settings.  Otherwise it has issued the read at most,
    and fails. *)
Theorem UpdateClusterConfig_swaps_what_it_read (cc : ClusterConfig) (s : S) :
  let o := impl.run h (UpdateClusterConfig CheckAndSetDefaults cc) s in
  (impl.exchanges o = [] /\ is_Some (impl.result o)) \/
  (exists answer : Result Item.t,
     impl.exchanges o = [(CallGet generalKey, impl.GotItem answer)] /\
     is_Some (impl.result o)) \/
  (exists (cc' current : ClusterConfig) (item : Item.t) (value : bytes)
          (answer : Result Lease.t),
     CheckAndSetDefaults cc = inr cc' /\
     Unmarshal (Item.Value item)
       [WithResourceID (Item.ID item); WithExpires (Item.Expires item)]
     = inr current /\
     Marshal (SetSessionRecording (GetSessionRecording cc') current) = inr value /\
     impl.exchanges o
     = [(CallGet generalKey, impl.GotItem (inr item));
        (CallCompareAndSwap item
           (update_item (SetSessionRecording (GetSessionRecording cc') current)
              value),
         impl.GotLease answer)]).
Proof.
  run_any; simplify_eq/=.
  all: try (by left).
  all: try (by right; left; eexists).
  all: right; right; by eexists _, _, _, _, _.
Qed.

(** ** On a backend with atomic primitives *)

Lemma atomic_Get (key : string) (s s' : S) (r : Result Item.t) :
  impl.atomic h -> impl.Get h key s = (r, s') -> s' = s.
Proof.
  intros Hat Hget. specialize (Hat (CallGet key) s (or_introl eq_refl)).
  simpl in Hat. by rewrite Hget in Hat.
Qed.

Ltac reads_change_nothing Hat :=
  repeat match goal with
         | H : impl.Get h ?key ?s = (_, ?s') |- _ =>
             assert (s' = s) as -> by exact (atomic_Get _ _ _ _ Hat H);
             clear H
         end.

Ltac failed_write Hat c :=
  match goal with
  | E : _ = (_, ?s') |- ?s' = ?s =>
      let H := fresh in
      pose proof (Hat c s) as H; cbn -[Key] in H; rewrite E in H;
      apply H; by right
  end.

Ltac one_write c :=
  exists c; cbn -[Key];
  match goal with
  | E : _ = (_, _) |- _ => rewrite E
  end; done.

(** C7: on any backend whose primitives are atomic, whatever it
    answers.  An operation that returns an error leaves the state of
    the backend exactly as it was before the call (so also at the
    operation's key).  An operation that succeeds and is meant to
    change the store has issued exactly one write, on its own key,
    which the backend answered without an error, and the state
    afterwards is the effect of that one write on the state before the
    call; a read that succeeds has issued no write and changed nothing.
    No run leaves a state in between. *)
Theorem operations_atomic (op : Operation) (s : S) :
  impl.atomic h ->
  let o := impl.run h (perform CheckAndSetDefaults op) s in
  match impl.result o with
  | Some _ => impl.final o = s
  | None =>
      if impl.writes op
      then exists w : Call,
             filter is_write (impl.calls o) = [w] /\
             impl.target w = key_of op /\
             impl.failure (impl.answer h w s) = None /\
             impl.final o = impl.effect h w s
      else filter is_write (impl.calls o) = [] /\ impl.final o = s
  end.
Proof.
  intros Hat o.
  assert (Hcases :
    (forall e : trace.error, impl.result o = Some e -> impl.final o = s) /\
    (impl.result o = None ->
     if impl.writes op
     then exists w : Call,
            filter is_write (impl.calls o) = [w] /\
            impl.target w = key_of op /\
            impl.failure (impl.answer h w s) = None /\
            impl.final o = impl.effect h w s
     else filter is_write (impl.calls o) = [] /\ impl.final o = s)).
  { subst o. destruct op; run_any.
    all: split; [intros ? ?|intros ?]; simplify_eq/=.
    all: reads_change_nothing Hat.
    all: try done.
    all: try match goal with
             | E : impl.Create h ?i _ = (inl _, _) |- _ = _ =>
                 failed_write Hat (CallCreate i)
             | E : impl.Put h ?i _ = (inl _, _) |- _ = _ =>
                 failed_write Hat (CallPut i)
             | E : impl.CompareAndSwap h ?e ?n _ = (inl _, _) |- _ = _ =>
                 failed_write Hat (CallCompareAndSwap e n)
             | E : impl.Delete h ?k _ = (Some _, _) |- _ = _ =>
                 failed_write Hat (CallDelete k)
             end.
    all: match goal with
         | E : impl.Create h ?i _ = (inr _, _) |- _ =>
             one_write (CallCreate i)
         | E : impl.Put h ?i _ = (inr _, _) |- _ =>
             one_write (CallPut i)
         | E : impl.CompareAndSwap h ?e ?n _ = (inr _, _) |- _ =>
             one_write (CallCompareAndSwap e n)
         | E : impl.Delete h ?k _ = (None, _) |- _ =>
             one_write (CallDelete k)
         end. }
  destruct Hcases as [Hfailed Hdone].
  destruct (impl.result o) as [e|]; [by apply (Hfailed e)|by apply Hdone].
Qed.

End AnyBackend.

(** ** The service on the in-memory backend *)

Lemma keys_distinct :
  nameKey <> staticTokensKey /\ nameKey <> authPreferenceKey /\
  nameKey <> generalKey /\ staticTokensKey <> authPreferenceKey /\
  staticTokensKey <> generalKey /\ authPreferenceKey <> generalKey.
Proof. repeat split; discriminate. Qed.

Lemma effect_other_key (c : Call) (b : memory.t) (key : string) :
  key <> memory.call_key c ->
  memory.lookup key (memory.effect c b) = memory.lookup key b.
Proof.
  intros Hne. destruct c as [k|i|i|e n|k]; simpl in *.
  - unfold memory.Get. by destruct (memory.lookup k b).
  - unfold memory.Create. destruct (memory.records b !! Item.Key i); [done|].
    simpl. by apply lookup_write_ne.
  - by apply lookup_write_ne.
  - unfold memory.CompareAndSwap.
    destruct (memory.records b !! Item.Key e); [|done].
    destruct (decide _); [|done]. simpl. by apply lookup_write_ne.
  - unfold memory.Delete. destruct (memory.records b !! k); [|done].
    unfold memory.lookup; simpl. by rewrite lookup_delete_ne.
Qed.

Section OnMemory.

Context {ClusterNameMarshaler : Marshaler ClusterNameSpec}.
Context {StaticTokensMarshaler : Marshaler StaticTokensSpec}.
Context {AuthPreferenceMarshaler : Marshaler AuthPreferenceSpec}.
Context {ClusterConfigMarshaler : Marshaler ClusterConfigSpec}.
Variable CheckAndSetDefaults : ClusterConfig -> Result ClusterConfig.

(** The result of [UpdateClusterConfig] when nobody else writes. *)
Lemma result_UpdateClusterConfig (cc : ClusterConfig) (b : memory.t) :
  memory.result (memory.run (UpdateClusterConfig CheckAndSetDefaults cc) b)
  = impl.update_result CheckAndSetDefaults cc (memory.lookup generalKey b).
Proof.
  unfold impl.update_result.
  destruct (CheckAndSetDefaults cc) as [err|cc'] eqn:Hcheck.
  { unfold memory.run, UpdateClusterConfig. by rewrite Hcheck. }
  destruct (memory.lookup generalKey b) as [item|] eqn:Hitem.
  2:{ unfold memory.run, UpdateClusterConfig, getClusterConfig, Get.
      rewrite Hcheck. cbn -[Key]. by rewrite (Get_missing _ _ Hitem). }
  destruct (Unmarshal (Item.Value item) _) as [err|current] eqn:Hcurrent.
  { unfold memory.run, UpdateClusterConfig, getClusterConfig, Get, AddOptions.
    rewrite Hcheck. cbn -[Key]. rewrite (Get_found _ _ _ Hitem). cbn -[Key].
    by rewrite Hcurrent. }
  destruct (Marshal _) as [err|value] eqn:Hvalue.
  { unfold memory.run, UpdateClusterConfig, getClusterConfig, Get, AddOptions.
    rewrite Hcheck. cbn -[Key]. rewrite (Get_found _ _ _ Hitem). cbn -[Key].
    rewrite Hcurrent. cbn -[Key]. by rewrite Hvalue. }
  by rewrite (run_UpdateClusterConfig_alone CheckAndSetDefaults b cc cc' current
                item value Hcheck Hitem Hcurrent Hvalue).
Qed.

(** X6: with no other actor between its read and its compare-and-swap,
    [UpdateClusterConfig] succeeds exactly when the value validates, the
    record is there and decodes, and the merged value marshals: the
    compare-and-swap itself goes through, and the "updated by another
    client, try again" error is never the answer. *)
Theorem UpdateClusterConfig_alone (cc : ClusterConfig) (b : memory.t) :
  let r := memory.result
             (memory.run (UpdateClusterConfig CheckAndSetDefaults cc) b) in
  (r = None <->
   exists (cc' current : ClusterConfig) (item : Item.t) (value : bytes),
     CheckAndSetDefaults cc = inr cc' /\
     memory.lookup generalKey b = Some item /\
     Unmarshal (Item.Value item)
       [WithResourceID (Item.ID item); WithExpires (Item.Expires item)]
     = inr current /\
     Marshal (SetSessionRecording (GetSessionRecording cc') current) = inr value) /\
  r <> Some try_again.
Proof.
  intros r. subst r. rewrite result_UpdateClusterConfig.
  unfold impl.update_result.
  destruct (CheckAndSetDefaults cc) as [err|cc'] eqn:Hcheck.
  { split; [|done]. split; [done|]. by intros (? & ? & ? & ? & ? & _). }
  destruct (memory.lookup generalKey b) as [item|] eqn:Hitem.
  2:{ split; [|done]. split; [done|]. by intros (? & ? & ? & ? & _ & ? & _). }
  destruct (Unmarshal (Item.Value item) _) as [err|current] eqn:Hcurrent.
  { split; [|done]. split; [done|].
    intros (? & ? & ? & ? & _ & [= <-] & Hdecode & _). congruence. }
  destruct (Marshal _) as [err|value] eqn:Hvalue.
  { split; [|done]. split; [done|].
    intros (? & ? & ? & ? & [= <-] & [= <-] & Hdecode & Hmarshal).
    rewrite Hcurrent in Hdecode. injection Hdecode as <-. congruence. }
  split; [|done]. split; [|done]. intros _. by exists cc', current, item, value.
Qed.

(** Where a run of an operation leaves the store. *)
Ltac with_call := eexists; split; [|reflexivity]; first [reflexivity|done].

Lemma final_perform (op : Operation) (b : memory.t) :
  memory.final (memory.run (perform CheckAndSetDefaults op) b) = b \/
  exists c : Call,
    memory.call_key c = key_of op /\
    memory.final (memory.run (perform CheckAndSetDefaults op) b)
    = memory.effect c b.
Proof.
  destruct op; cbn [perform key_of].
  - left. unfold memory.run. rewrite run_with_bind_Ret.
    fold (memory.run (GetClusterName opts) b). by rewrite run_GetClusterName.
  - right. rewrite run_DeleteClusterName. with_call.
  - rewrite run_SetClusterName. destruct (Marshal c); [by left|].
    right. with_call.
  - rewrite run_UpsertClusterName. unfold memory.put_outcome.
    destruct (Marshal c); [by left|]. right. with_call.
  - left. unfold memory.run. rewrite run_with_bind_Ret.
    fold (memory.run GetStaticTokens b). by rewrite run_GetStaticTokens.
  - rewrite run_SetStaticTokens. unfold memory.put_outcome.
    destruct (Marshal c); [by left|]. right. with_call.
  - right. rewrite run_DeleteStaticTokens. with_call.
  - left. unfold memory.run. rewrite run_with_bind_Ret.
    fold (memory.run GetAuthPreference b). by rewrite run_GetAuthPreference.
  - rewrite run_SetAuthPreference. unfold memory.put_outcome.
    destruct (Marshal preferences); [by left|]. right. with_call.
  - left. unfold memory.run. rewrite run_with_bind_Ret.
    fold (memory.run (GetClusterConfig opts) b). by rewrite run_GetClusterConfig.
  - destruct (run_UpdateClusterConfig_cases CheckAndSetDefaults cc b)
      as [[err ->]|[[err ->]|(item & new & Hkey & ->)]]; [by left..|].
    right. with_call.
  - right. rewrite run_DeleteClusterConfig. with_call.
  - rewrite run_SetClusterConfig. unfold memory.put_outcome.
    destruct (Marshal c); [by left|]. right. with_call.
Qed.

(** X7: no operation touches a record under a key other than its own:
    whatever it does, every other key holds afterwards what it held
    before. *)
Theorem operations_leave_other_keys
    (op : Operation) (b : memory.t) (key : string) :
  key <> key_of op ->
  memory.lookup key (memory.final (memory.run (perform CheckAndSetDefaults op) b))
  = memory.lookup key b.
Proof.
  intros Hne. destruct (final_perform op b) as [->|(c & Hkey & ->)]; [done|].
  apply effect_other_key. by rewrite Hkey.
Qed.

(** The result of an operation is decided by the record under its own
    key. *)
Lemma result_of_own_record (op : Operation) (b b' : memory.t) :
  memory.lookup (key_of op) b = memory.lookup (key_of op) b' ->
  memory.result (memory.run (perform CheckAndSetDefaults op) b)
  = memory.result (memory.run (perform CheckAndSetDefaults op) b').
Proof.
  intros Hsame. destruct op; cbn [perform key_of] in *.
  - unfold memory.run. rewrite !run_with_bind_Ret.
    fold (memory.run (GetClusterName opts) b) (memory.run (GetClusterName opts) b').
    rewrite !run_GetClusterName. unfold memory.map_result; simpl. by rewrite Hsame.
  - rewrite !run_DeleteClusterName. unfold memory.delete_outcome; simpl.
    by rewrite Hsame.
  - rewrite !run_SetClusterName. destruct (Marshal c); [done|]. simpl.
    by rewrite Hsame.
  - rewrite !run_UpsertClusterName. unfold memory.put_outcome.
    by destruct (Marshal c).
  - unfold memory.run. rewrite !run_with_bind_Ret.
    fold (memory.run GetStaticTokens b) (memory.run GetStaticTokens b').
    rewrite !run_GetStaticTokens. unfold memory.map_result; simpl. by rewrite Hsame.
  - rewrite !run_SetStaticTokens. unfold memory.put_outcome.
    by destruct (Marshal c).
  - rewrite !run_DeleteStaticTokens. unfold memory.delete_outcome; simpl.
    by rewrite Hsame.
  - unfold memory.run. rewrite !run_with_bind_Ret.
    fold (memory.run GetAuthPreference b) (memory.run GetAuthPreference b').
    rewrite !run_GetAuthPreference. unfold memory.map_result; simpl. by rewrite Hsame.
  - rewrite !run_SetAuthPreference. unfold memory.put_outcome.
    by destruct (Marshal preferences).
  - unfold memory.run. rewrite !run_with_bind_Ret.
    fold (memory.run (GetClusterConfig opts) b) (memory.run (GetClusterConfig opts) b').
    rewrite !run_GetClusterConfig. unfold memory.map_result; simpl. by rewrite Hsame.
  - by rewrite !result_UpdateClusterConfig, Hsame.
  - rewrite !run_DeleteClusterConfig. unfold memory.delete_outcome; simpl.
    by rewrite Hsame.
  - rewrite !run_SetClusterConfig. unfold memory.put_outcome.
    by destruct (Marshal c).
Qed.

(** X8: operations on different keys do not see each other: whatever
    [first] does, [second] returns afterwards the error (or the success)
    it would have returned before. *)
Theorem other_keys_do_not_interfere (first second : Operation) (b : memory.t) :
  key_of first <> key_of second ->
  memory.result
    (memory.run (perform CheckAndSetDefaults second)
       (memory.final (memory.run (perform CheckAndSetDefaults first) b)))
  = memory.result (memory.run (perform CheckAndSetDefaults second) b).
Proof.
  intros Hne. apply result_of_own_record.
  destruct (final_perform first b) as [->|(c & Hkey & ->)]; [done|].
  apply effect_other_key. by rewrite Hkey.
Qed.

Lemma effect_nextID (c : Call) (b : memory.t) :
  memory.nextID b <= memory.nextID (memory.effect c b).
Proof.
  destruct c as [k|i|i|e n|k]; simpl.
  - unfold memory.Get. by destruct (memory.lookup k b).
  - unfold memory.Create. destruct (memory.records b !! Item.Key i); simpl; lia.
  - lia.
  - unfold memory.CompareAndSwap.
    destruct (memory.records b !! Item.Key e); simpl; [|lia].
    destruct (decide _); simpl; lia.
  - unfold memory.Delete. by destruct (memory.records b !! k).
Qed.

(** A store operation that succeeds has written under its key. *)
Lemma success_is_one_write (op : Operation) (b : memory.t) :
  impl.writes op = true ->
  impl.deletes op = false ->
  memory.result (memory.run (perform CheckAndSetDefaults op) b) = None ->
  exists (value : bytes) (expires : Time),
    memory.final (memory.run (perform CheckAndSetDefaults op) b)
    = memory.write (key_of op) value expires b.
Proof.
  intros Hwrites Hdeletes.
  destruct op; try discriminate Hwrites; try discriminate Hdeletes;
    cbn [perform key_of].
  - rewrite run_SetClusterName.
    destruct (Marshal c) as [err|value]; [done|]. cbn -[Key].
    unfold memory.Create, memory.lookup. cbn -[Key].
    destruct (memory.records b !! nameKey); [done|]. intros _. by eexists _, _.
  - rewrite run_UpsertClusterName. unfold memory.put_outcome.
    destruct (Marshal c) as [err|value]; [done|]. intros _. by eexists _, _.
  - rewrite run_SetStaticTokens. unfold memory.put_outcome.
    destruct (Marshal c) as [err|value]; [done|]. intros _. by eexists _, _.
  - rewrite run_SetAuthPreference. unfold memory.put_outcome.
    destruct (Marshal preferences) as [err|value]; [done|]. intros _.
    by eexists _, _.
  - rewrite result_UpdateClusterConfig. unfold impl.update_result.
    destruct (CheckAndSetDefaults cc) as [err|cc'] eqn:Hcheck; [done|].
    destruct (memory.lookup generalKey b) as [item|] eqn:Hitem; [|done].
    destruct (Unmarshal (Item.Value item) _) as [err|current] eqn:Hcurrent;
      [done|].
    destruct (Marshal _) as [err|value] eqn:Hvalue; [done|]. intros _.
    rewrite (run_UpdateClusterConfig_alone CheckAndSetDefaults b cc cc' current
               item value Hcheck Hitem Hcurrent Hvalue).
    by eexists _, _.
  - rewrite run_SetClusterConfig. unfold memory.put_outcome.
    destruct (Marshal c) as [err|value]; [done|]. intros _. by eexists _, _.
Qed.

(** X9: when one of the six operations that store a value
    ([SetClusterName], [UpsertClusterName], [SetStaticTokens],
    [SetAuthPreference], [SetClusterConfig], [UpdateClusterConfig])
    succeeds, the record under its key carries a revision that no
    record of the store had before the call, and an item of that key
    read before the call no longer passes a compare-and-swap: this is
    how a successful write of the general settings makes a concurrent
    [UpdateClusterConfig] that read before it lose. *)
Theorem stored_record_has_new_revision (op : Operation) (b : memory.t) :
  memory.wf b ->
  impl.writes op = true ->
  impl.deletes op = false ->
  let o := memory.run (perform CheckAndSetDefaults op) b in
  memory.result o = None ->
  exists item : Item.t,
    memory.lookup (key_of op) (memory.final o) = Some item /\
    (forall (key : string) (old : Item.t),
       memory.lookup key b = Some old -> Item.ID old < Item.ID item) /\
    (forall old new : Item.t,
       memory.lookup (key_of op) b = Some old ->
       memory.CompareAndSwap old new (memory.final o)
       = (inl (trace.CompareFailed "revision does not match"), memory.final o)).
Proof.
  intros Hwf Hwrites Hdeletes o Hok. subst o.
  destruct (success_is_one_write op b Hwrites Hdeletes Hok)
    as (value & expires & ->).
  assert (Holder : forall (key : string) (old : Item.t),
            memory.lookup key b = Some old -> Item.ID old < memory.nextID b).
  { intros key old (e & He & ->)%lookup_Some. simpl. by apply (Hwf key). }
  eexists. split; [apply lookup_write|]. split; [exact Holder|].
  intros old new Hold.
  eapply (CompareAndSwap_stale _ old _ new (key_of op)).
  - by eapply lookup_Key.
  - apply lookup_write.
  - simpl. specialize (Holder _ _ Hold). lia.
Qed.

(** X10: each delete succeeds exactly when there is a record under its
    key; when there is none it returns a not-found error and leaves the
    store as it was; either way the key holds no record afterwards. *)
Theorem Delete_reports_absence (op : Operation) (b : memory.t) :
  impl.deletes op = true ->
  let o := memory.run (perform CheckAndSetDefaults op) b in
  (memory.result o = None <-> is_Some (memory.lookup (key_of op) b)) /\
  (forall e : trace.error,
     memory.result o = Some e -> trace.IsNotFound e = true /\ memory.final o = b) /\
  memory.lookup (key_of op) (memory.final o) = None.
Proof.
  intros Hdelete o. subst o.
  assert (Hrun : exists message,
            memory.run (perform CheckAndSetDefaults op) b
            = memory.delete_outcome (key_of op) message b).
  { destruct op; try discriminate Hdelete; cbn [perform key_of]; eexists;
      [apply run_DeleteClusterName|apply run_DeleteStaticTokens
      |apply run_DeleteClusterConfig]. }
  destruct Hrun as [message ->].
  unfold memory.delete_outcome, memory.lookup; cbn -[Key].
  unfold memory.Delete.
  destruct (memory.records b !! key_of op) as [e|] eqn:He; cbn -[Key].
  - split; [by split; [eauto|]|]. split; [done|]. by rewrite lookup_delete_eq.
  - split; [split; [done|by intros [? ?]]|]. split; [|by rewrite He].
    by intros e [= <-].
Qed.

(** X11: after a delete, whether it found a record or not, the read of
    the same resource fails with a not-found error. *)
Theorem Get_after_Delete (b : memory.t) (opts : list MarshalOption) :
  (exists e : trace.error,
     memory.result
       (memory.run (GetClusterName opts)
          (memory.final (memory.run DeleteClusterName b))) = inl e /\
     trace.IsNotFound e = true) /\
  (exists e : trace.error,
     memory.result
       (memory.run GetStaticTokens
          (memory.final (memory.run DeleteStaticTokens b))) = inl e /\
     trace.IsNotFound e = true) /\
  (exists e : trace.error,
     memory.result
       (memory.run (GetClusterConfig opts)
          (memory.final (memory.run DeleteClusterConfig b))) = inl e /\
     trace.IsNotFound e = true).
Proof.
  assert (Hgone : forall key message,
            memory.lookup key
              (memory.final (memory.delete_outcome key message b)) = None).
  { intros key message. unfold memory.delete_outcome, memory.lookup; simpl.
    unfold memory.Delete.
    destruct (memory.records b !! key) eqn:He; simpl;
      [by rewrite lookup_delete_eq|by rewrite He]. }
  rewrite run_DeleteClusterName, run_DeleteStaticTokens, run_DeleteClusterConfig.
  rewrite run_GetClusterName, run_GetStaticTokens, run_GetClusterConfig.
  cbn [memory.result]. rewrite !Hgone.
  repeat split; by eexists.
Qed.

(** X12: the cluster name can be set again once it has been deleted:
    where a record is in the way [SetClusterName] fails, and after
    [DeleteClusterName] the same call succeeds and stores its value. *)
Theorem SetClusterName_after_Delete
    (b : memory.t) (item : Item.t) (c : ClusterName) (value : bytes) :
  memory.lookup nameKey b = Some item ->
  Marshal c = inr value ->
  let deleted := memory.run DeleteClusterName b in
  let again := memory.run (SetClusterName c) (memory.final deleted) in
  is_Some (memory.result (memory.run (SetClusterName c) b)) /\
  memory.result deleted = None /\
  memory.result again = None /\
  memory.lookup nameKey (memory.final again)
  = Some {| Item.Key := nameKey; Item.Value := value;
            Item.Expires := Expiry c; Item.ID := memory.nextID b |}.
Proof.
  intros Hitem Hvalue deleted again. subst deleted again.
  destruct (SetClusterName_present b c item Hitem) as (e & -> & _).
  split; [by eexists|].
  rewrite run_DeleteClusterName. unfold memory.delete_outcome.
  rewrite Hitem. cbn [memory.result memory.final].
  split; [done|].
  assert (Habsent : memory.lookup nameKey (memory.effect (CallDelete nameKey) b)
                    = None).
  { apply lookup_Some in Hitem as (entry & He & _).
    unfold memory.lookup; cbn -[Key]. unfold memory.Delete. rewrite He.
    cbn -[Key]. by rewrite lookup_delete_eq. }
  rewrite (SetClusterName_absent _ c value Habsent Hvalue).
  cbn [memory.result memory.final]. split; [done|].
  rewrite lookup_write. do 2 f_equal.
  apply lookup_Some in Hitem as (entry & He & _).
  cbn -[Key]. unfold memory.Delete. by rewrite He.
Qed.

(** X20: [SetClusterName] never overwrites: on a store that holds a
    cluster name, however it got there, the call fails, with
    [AlreadyExists] for a value that marshals, and the record stays as
    it is. *)
Theorem SetClusterName_never_overwrites
    (b : memory.t) (item : Item.t) (c : ClusterName) :
  memory.lookup nameKey b = Some item ->
  let o := memory.run (SetClusterName c) b in
  memory.final o = b /\
  memory.lookup nameKey (memory.final o) = Some item /\
  exists e : trace.error,
    memory.result o = Some e /\
    (forall value, Marshal c = inr value -> trace.IsAlreadyExists e = true).
Proof.
  intros Hitem o. subst o.
  destruct (SetClusterName_present b c item Hitem) as (e & Hresult & Hfinal & Hkind).
  rewrite Hfinal. split; [done|]. split; [done|].
  exists e. split; [done|]. intros value Hvalue. by apply Hkind in Hvalue as [? _].
Qed.

(** X13: [UpdateClusterConfig] never creates the record: on a store
    without it, it fails (with a not-found error when the value
    validates, with the validation error otherwise) and the store is as
    it was. *)
Theorem UpdateClusterConfig_never_creates (cc : ClusterConfig) (b : memory.t) :
  memory.lookup generalKey b = None ->
  let o := memory.run (UpdateClusterConfig CheckAndSetDefaults cc) b in
  memory.final o = b /\
  match CheckAndSetDefaults cc with
  | inl err => memory.result o = Some (trace.Wrap err)
  | inr _ =>
      exists e : trace.error,
        memory.result o = Some e /\ trace.IsNotFound e = true /\
        memory.calls o = [CallGet generalKey]
  end.
Proof.
  intros Habsent o. subst o.
  unfold memory.run, UpdateClusterConfig, getClusterConfig, Get.
  destruct (CheckAndSetDefaults cc) as [err|cc']; [done|].
  cbn -[Key]. rewrite (Get_missing _ _ Habsent). cbn -[Key].
  split; [done|]. by eexists.
Qed.

End OnMemory.

(** ** Set, update, read *)

Section Scenarios.

Context {ClusterNameMarshaler : Marshaler ClusterNameSpec}.
Context {ClusterConfigMarshaler : Marshaler ClusterConfigSpec}.
Context {ClusterNameRoundTrip : RoundTrip ClusterNameSpec}.
Context {ClusterConfigRoundTrip : RoundTrip ClusterConfigSpec}.
Variable CheckAndSetDefaults : ClusterConfig -> Result ClusterConfig.

(** An update of a record whose payload is the encoding of [w]. *)
Lemma Update_of_marshaled
    (b : memory.t) (w cc cc' : ClusterConfig) (item : Item.t) (value : bytes) :
  memory.lookup generalKey b = Some item ->
  Marshal w = inr (Item.Value item) ->
  CheckAndSetDefaults cc = inr cc' ->
  Marshal (impl.merged cc' w item) = inr value ->
  memory.run (UpdateClusterConfig CheckAndSetDefaults cc) b
  = memory.MkOutcome None
      (memory.write generalKey value (Item.Expires item) b)
      [CallGet generalKey;
       CallCompareAndSwap item (update_item (impl.merged cc' w item) value)] /\
  memory.result
    (memory.run (GetClusterConfig [])
       (memory.write generalKey value (Item.Expires item) b))
  = inr (MkResource
           (MkClusterConfigSpec (GetSessionRecording cc')
                                (OtherSettings (Content w)))
           (memory.nextID b) (Item.Expires item)).
Proof.
  intros Hitem Hw Hcheck Hvalue.
  pose proof (decode_annotated w _ (Item.ID item) (Item.Expires item) Hw)
    as Hcurrent.
  split.
  - by rewrite (run_UpdateClusterConfig_alone CheckAndSetDefaults b cc cc' _
                  item value Hcheck Hitem Hcurrent Hvalue).
  - rewrite run_GetClusterConfig, lookup_write. cbn -[Key].
    by rewrite (decode_annotated _ value _ _ Hvalue).
Qed.

(** X14: [SetClusterConfig w], then [UpdateClusterConfig cc], then
    [GetClusterConfig]: the update succeeds, and what is read has the
    session-recording mode of the validated [cc] and the other settings
    of [w]; nothing else of [cc] shows. *)
Theorem Set_Update_Get
    (b : memory.t) (w cc cc' : ClusterConfig) (payload value : bytes) :
  Marshal w = inr payload ->
  CheckAndSetDefaults cc = inr cc' ->
  Marshal (MkResource
             (MkClusterConfigSpec (GetSessionRecording cc')
                                  (OtherSettings (Content w)))
             (memory.nextID b) 0) = inr value ->
  let set := memory.run (SetClusterConfig w) b in
  let update := memory.run (UpdateClusterConfig CheckAndSetDefaults cc)
                  (memory.final set) in
  memory.result set = None /\
  memory.result update = None /\
  memory.result (memory.run (GetClusterConfig []) (memory.final update))
  = inr (MkResource
           (MkClusterConfigSpec (GetSessionRecording cc')
                                (OtherSettings (Content w)))
           (memory.nextID b + 1) 0).
Proof.
  intros Hw Hcheck Hvalue set update. subst set update.
  rewrite run_SetClusterConfig. unfold memory.put_outcome. rewrite Hw.
  cbn [memory.result memory.final memory.effect memory.Put snd
       Item.Key Item.Value Item.Expires].
  split; [done|].
  destruct (Update_of_marshaled (memory.write generalKey payload 0 b) w cc cc'
              _ value (lookup_write _ _ _ _) Hw Hcheck Hvalue) as [-> Hread].
  split; [done|]. exact Hread.
Qed.

(** X15: the retry is the caller's, and it works.  The settings [w0]
    are stored; between the read and the compare-and-swap of
    [UpdateClusterConfig cc] another actor stores [w1]: the update
    fails with the try-again error.  Called again, it succeeds, and
    what is read afterwards has the session-recording mode of [cc] on
    the other actor's settings [w1]. *)
Theorem retry_after_lost_race
    (b : memory.t) (w0 w1 cc cc' : ClusterConfig) (p0 p1 v0 v1 : bytes) :
  Marshal w0 = inr p0 ->
  Marshal w1 = inr p1 ->
  CheckAndSetDefaults cc = inr cc' ->
  Marshal (MkResource
             (MkClusterConfigSpec (GetSessionRecording cc')
                                  (OtherSettings (Content w0)))
             (memory.nextID b) 0) = inr v0 ->
  Marshal (MkResource
             (MkClusterConfigSpec (GetSessionRecording cc')
                                  (OtherSettings (Content w1)))
             (memory.nextID b + 1) 0) = inr v1 ->
  let stored := memory.final (memory.run (SetClusterConfig w0) b) in
  let rival := fun s => memory.final (memory.run (SetClusterConfig w1) s) in
  let first := memory.run_with [rival]
                 (UpdateClusterConfig CheckAndSetDefaults cc) stored in
  let retry := memory.run (UpdateClusterConfig CheckAndSetDefaults cc)
                 (memory.final first) in
  memory.result first = Some try_again /\
  memory.result retry = None /\
  memory.result (memory.run (GetClusterConfig []) (memory.final retry))
  = inr (MkResource
           (MkClusterConfigSpec (GetSessionRecording cc')
                                (OtherSettings (Content w1)))
           (memory.nextID b + 2) 0).
Proof.
  intros Hw0 Hw1 Hcheck Hv0 Hv1 stored rival first retry.
  assert (Hstored : stored = memory.write generalKey p0 0 b).
  { subst stored. rewrite run_SetClusterConfig. unfold memory.put_outcome.
    by rewrite Hw0. }
  assert (Hrival : forall s, rival s = memory.write generalKey p1 0 s).
  { intros s. subst rival. cbn beta. rewrite run_SetClusterConfig.
    unfold memory.put_outcome. by rewrite Hw1. }
  clearbody stored rival. subst stored.
  set (b0 := memory.write generalKey p0 0 b) in *.
  set (item0 := {| Item.Key := generalKey; Item.Value := p0;
                   Item.Expires := 0; Item.ID := memory.nextID b |}).
  assert (Hitem0 : memory.lookup generalKey b0 = Some item0)
    by apply lookup_write.
  pose proof (decode_annotated w0 p0 (memory.nextID b) 0 Hw0) as Hcurrent0.
  assert (Hfirst : first
                   = memory.MkOutcome (Some try_again) (rival b0)
                       [CallGet generalKey;
                        CallCompareAndSwap item0
                          (update_item (impl.merged cc' w0 item0) v0)]).
  { subst first.
    rewrite (run_UpdateClusterConfig CheckAndSetDefaults [rival] b0 cc cc' _
               item0 v0 Hcheck Hitem0 Hcurrent0 Hv0).
    cbn -[Key memory.CompareAndSwap].
    rewrite (CompareAndSwap_stale (rival b0) item0
               {| Item.Key := generalKey; Item.Value := p1;
                  Item.Expires := 0; Item.ID := memory.nextID b0 |}
               _ generalKey eq_refl).
    - reflexivity.
    - rewrite Hrival. apply lookup_write.
    - cbn. lia. }
  clearbody first. subst first. cbn [memory.result memory.final] in *.
  split; [done|]. subst retry. rewrite Hrival.
  destruct (Update_of_marshaled (memory.write generalKey p1 0 b0) w1 cc cc'
              _ v1 (lookup_write _ _ _ _) Hw1 Hcheck Hv1) as [-> Hread].
  split; [done|]. cbn [memory.final]. rewrite Hread.
  do 2 f_equal. cbn. lia.
Qed.

(** The content and the metadata a list of options leaves. *)
Lemma Content_apply_options {T} (opts : list MarshalOption) (x : Resource T) :
  Content (apply_options opts x) = Content x.
Proof.
  unfold apply_options. revert x.
  induction opts as [|o opts IH]; intros x; simpl; [done|].
  rewrite IH. by destruct o.
Qed.

Lemma Expiry_apply_options {T} (opts : list MarshalOption) (x : Resource T) :
  Expiry (apply_options opts x) = default (Expiry x) (impl.last_expiry opts).
Proof.
  unfold apply_options. revert x.
  induction opts as [|o opts IH]; intros x; simpl; [done|].
  rewrite IH. destruct o; simpl; [done|].
  by destruct (impl.last_expiry opts).
Qed.

Lemma apply_options_revision_last {T}
    (opts : list MarshalOption) (id : Z) (x : Resource T) :
  apply_options (opts ++ [WithResourceID id]) x
  = SetResourceID id (apply_options opts x).
Proof. unfold apply_options. by rewrite fold_left_app. Qed.

(** X16: [GetClusterName] hands the caller's options to the
    unmarshaler, followed by the revision identifier of the record.
    With a codec that keeps the round-trip law, on a record that holds
    the encoding of [v]: whatever the options, the value returned has the
    content of [v] and the revision identifier of the record, not one
    the caller asked for; an expiry the caller asks for is the expiry
    of the value returned. *)
Theorem GetClusterName_with_options
    (b : memory.t) (v : ClusterName) (item : Item.t)
    (opts : list MarshalOption) :
  memory.lookup nameKey b = Some item ->
  Marshal v = inr (Item.Value item) ->
  exists r : ClusterName,
    memory.result (memory.run (GetClusterName opts) b) = inr r /\
    memory.result (memory.run (GetClusterName opts) b)
    = Unmarshal (Item.Value item) (opts ++ [WithResourceID (Item.ID item)]) /\
    Content r = Content v /\
    GetResourceID r = Item.ID item /\
    match impl.last_expiry opts with
    | Some t => Expiry r = t
    | None => True
    end.
Proof.
  intros Hitem Hv. rewrite run_GetClusterName, Hitem. cbn [memory.result].
  destruct (round_trip _ _ Hv) as (base & Hbase & Hdecode).
  rewrite Hdecode, apply_options_revision_last.
  eexists. split; [reflexivity|]. split; [reflexivity|].
  split; [cbn; by rewrite Content_apply_options|]. split; [reflexivity|].
  cbn. rewrite Expiry_apply_options. by destruct (impl.last_expiry opts).
Qed.

End Scenarios.

(** ** The properties on the sample values *)

Import example.

Lemma operations_leave_other_keys_witness :
  memory.lookup generalKey
    (memory.final
       (memory.run (perform CheckAndSetDefaults (OpSetClusterName prod)) node_store))
  = memory.lookup generalKey node_store.
Proof.
  apply (operations_leave_other_keys (ClusterNameMarshaler := content_codec _)
           (StaticTokensMarshaler := content_codec _)
           (AuthPreferenceMarshaler := content_codec _)
           (ClusterConfigMarshaler := content_codec _)
           CheckAndSetDefaults (OpSetClusterName prod) node_store generalKey).
  discriminate.
Defined.

Lemma other_keys_do_not_interfere_witness :
  memory.result
    (memory.run (perform CheckAndSetDefaults (OpGetClusterConfig []))
       (memory.final
          (memory.run (perform CheckAndSetDefaults (OpSetStaticTokens tokens))
             node_store)))
  = memory.result
      (memory.run (perform CheckAndSetDefaults (OpGetClusterConfig [])) node_store).
Proof.
  apply (other_keys_do_not_interfere (ClusterNameMarshaler := content_codec _)
           (StaticTokensMarshaler := content_codec _)
           (AuthPreferenceMarshaler := content_codec _)
           (ClusterConfigMarshaler := content_codec _)
           CheckAndSetDefaults (OpSetStaticTokens tokens) (OpGetClusterConfig [])
           node_store).
  discriminate.
Defined.

Lemma stored_record_has_new_revision_witness :
  let o := memory.run
             (perform CheckAndSetDefaults (OpUpdateClusterConfig proxy_config))
             node_store in
  exists item : Item.t,
    memory.lookup generalKey (memory.final o) = Some item /\
    (forall (key : string) (old : Item.t),
       memory.lookup key node_store = Some old -> Item.ID old < Item.ID item) /\
    (forall old new : Item.t,
       memory.lookup generalKey node_store = Some old ->
       memory.CompareAndSwap old new (memory.final o)
       = (inl (trace.CompareFailed "revision does not match"), memory.final o)).
Proof.
  apply (stored_record_has_new_revision (ClusterNameMarshaler := content_codec _)
           (StaticTokensMarshaler := content_codec _)
           (AuthPreferenceMarshaler := content_codec _)
           (ClusterConfigMarshaler := content_codec _)
           CheckAndSetDefaults (OpUpdateClusterConfig proxy_config) node_store).
  - apply (wf_effect (CallPut {| Item.Key := generalKey;
                                 Item.Value := pos_to_bytes (encode (Content node_config));
                                 Item.Expires := 0;
                                 Item.ID := GetResourceID node_config |})
             memory.empty wf_empty).
  - reflexivity.
  - reflexivity.
  - reflexivity.
Defined.

Lemma Delete_reports_absence_witness :
  memory.result (memory.run (perform CheckAndSetDefaults OpDeleteClusterConfig)
                   node_store) = None /\
  memory.lookup generalKey
    (memory.final (memory.run (perform CheckAndSetDefaults OpDeleteClusterConfig)
                     node_store)) = None.
Proof.
  destruct (Delete_reports_absence (ClusterNameMarshaler := content_codec _)
              (StaticTokensMarshaler := content_codec _)
              (AuthPreferenceMarshaler := content_codec _)
              (ClusterConfigMarshaler := content_codec _)
              CheckAndSetDefaults OpDeleteClusterConfig node_store eq_refl)
    as (Hresult & _ & Hgone).
  split; [|exact Hgone]. apply Hresult. vm_compute. by eexists.
Defined.

Lemma SetClusterName_after_Delete_witness :
  let named := memory.final (memory.run (SetClusterName prod) memory.empty) in
  is_Some (memory.result (memory.run (SetClusterName staging) named)) /\
  memory.result
    (memory.run (SetClusterName staging)
       (memory.final (memory.run DeleteClusterName named))) = None.
Proof.
  intros named. subst named.
  destruct (SetClusterName_after_Delete (ClusterNameMarshaler := content_codec _)
              (memory.final (memory.run (SetClusterName prod) memory.empty))
              {| Item.Key := nameKey;
                 Item.Value := pos_to_bytes (encode (Content prod));
                 Item.Expires := 1000; Item.ID := 1 |}
              staging (pos_to_bytes (encode (Content staging))))
    as (Hfails & _ & Hagain & _).
  - vm_compute; reflexivity.
  - reflexivity.
  - split; [exact Hfails|exact Hagain].
Defined.

Lemma SetClusterName_never_overwrites_witness :
  let upserted := memory.final (memory.run (UpsertClusterName prod) memory.empty) in
  memory.final (memory.run (SetClusterName staging) upserted) = upserted.
Proof.
  intros upserted. subst upserted.
  apply (SetClusterName_never_overwrites (ClusterNameMarshaler := content_codec _)
           (memory.final (memory.run (UpsertClusterName prod) memory.empty))
           {| Item.Key := nameKey;
              Item.Value := pos_to_bytes (encode (Content prod));
              Item.Expires := 1000; Item.ID := 1 |}
           staging).
  vm_compute; reflexivity.
Defined.

(** The in-memory store has atomic primitives, and so has the
    read-only one. *)
Lemma in_memory_atomic : impl.atomic impl.in_memory.
Proof.
  intros c b Hc. destruct c as [key|i|i|e n|key]; cbn in *.
  - unfold memory.Get. by destruct (memory.lookup key b).
  - unfold memory.Create in *.
    destruct (memory.records b !! Item.Key i); [done|].
    by destruct Hc as [?|[]].
  - by destruct Hc as [?|[]].
  - unfold memory.CompareAndSwap in *.
    destruct (memory.records b !! Item.Key e); [|done].
    destruct (decide _); [|done]. by destruct Hc as [?|[]].
  - unfold memory.Delete in *.
    destruct (memory.records b !! key); [|done]. by destruct Hc as [?|[]].
Qed.

Lemma read_only_atomic : impl.atomic impl.read_only.
Proof.
  intros c b _. destruct c as [key|i|i|e n|key]; cbn; try done.
  unfold memory.Get. by destruct (memory.lookup key b).
Qed.

Lemma operations_atomic_witness :
  let update := perform CheckAndSetDefaults (OpUpdateClusterConfig proxy_config) in
  (exists w : Call,
     filter is_write (impl.calls (impl.run impl.in_memory update node_store)) = [w] /\
     impl.target w = generalKey /\
     impl.failure (impl.answer impl.in_memory w node_store) = None /\
     impl.final (impl.run impl.in_memory update node_store)
     = impl.effect impl.in_memory w node_store) /\
  impl.result (impl.run impl.read_only update node_store)
  = Some (trace.Wrap (trace.New trace.KOther "connection is read-only")) /\
  impl.final (impl.run impl.read_only update node_store) = node_store.
Proof.
  intros update. subst update. split; [|split; [reflexivity|]].
  - exact (operations_atomic
             (ClusterNameMarshaler := content_codec _)
             (StaticTokensMarshaler := content_codec _)
             (AuthPreferenceMarshaler := content_codec _)
             (ClusterConfigMarshaler := content_codec _)
             CheckAndSetDefaults impl.in_memory
             (OpUpdateClusterConfig proxy_config) node_store in_memory_atomic).
  - exact (operations_atomic
             (ClusterNameMarshaler := content_codec _)
             (StaticTokensMarshaler := content_codec _)
             (AuthPreferenceMarshaler := content_codec _)
             (ClusterConfigMarshaler := content_codec _)
             CheckAndSetDefaults impl.read_only
             (OpUpdateClusterConfig proxy_config) node_store read_only_atomic).
Defined.

Lemma UpdateClusterConfig_never_creates_witness :
  memory.final
    (memory.run (UpdateClusterConfig CheckAndSetDefaults proxy_config) memory.empty)
  = memory.empty.
Proof.
  apply (UpdateClusterConfig_never_creates (ClusterConfigMarshaler := content_codec _)
           CheckAndSetDefaults proxy_config memory.empty).
  reflexivity.
Defined.

Lemma Set_Update_Get_witness :
  memory.result
    (memory.run (GetClusterConfig [])
       (memory.final
          (memory.run (UpdateClusterConfig CheckAndSetDefaults proxy_config)
             (memory.final (memory.run (SetClusterConfig node_config) memory.empty)))))
  = inr (MkResource (MkClusterConfigSpec "proxy" settings) 2 0).
Proof.
  destruct (Set_Update_Get (ClusterConfigMarshaler := content_codec _)
              CheckAndSetDefaults memory.empty node_config proxy_config proxy_config
              (pos_to_bytes (encode (Content node_config)))
              (pos_to_bytes (encode (MkClusterConfigSpec "proxy" settings)))
              eq_refl eq_refl eq_refl)
    as (_ & _ & Hread).
  exact Hread.
Defined.

Lemma retry_after_lost_race_witness :
  let first := memory.run_with [rival]
                 (UpdateClusterConfig CheckAndSetDefaults proxy_config) node_store in
  memory.result first = Some try_again /\
  memory.result
    (memory.run (GetClusterConfig [])
       (memory.final
          (memory.run (UpdateClusterConfig CheckAndSetDefaults proxy_config)
             (memory.final first))))
  = inr (MkResource (MkClusterConfigSpec "proxy" []) 3 0).
Proof.
  intros first. subst first.
  destruct (retry_after_lost_race (ClusterConfigMarshaler := content_codec _)
              CheckAndSetDefaults memory.empty node_config off_config
              proxy_config proxy_config
              (pos_to_bytes (encode (Content node_config)))
              (pos_to_bytes (encode (Content off_config)))
              (pos_to_bytes (encode (MkClusterConfigSpec "proxy" settings)))
              (pos_to_bytes (encode (MkClusterConfigSpec "proxy" [])))
              eq_refl eq_refl eq_refl eq_refl eq_refl)
    as (Hfirst & _ & Hread).
  split; [exact Hfirst|exact Hread].
Defined.

Lemma GetClusterName_with_options_witness :
  exists r : ClusterName,
    memory.result
      (memory.run (GetClusterName [WithResourceID 99; WithExpires 7])
         (memory.final (memory.run (UpsertClusterName prod) memory.empty)))
    = inr r /\
    GetResourceID r = 1 /\ Expiry r = 7.
Proof.
  destruct (GetClusterName_with_options (ClusterNameMarshaler := content_codec _)
              (memory.final (memory.run (UpsertClusterName prod) memory.empty))
              prod
              {| Item.Key := nameKey;
                 Item.Value := pos_to_bytes (encode (Content prod));
                 Item.Expires := 1000; Item.ID := 1 |}
              [WithResourceID 99; WithExpires 7])
    as (r & Hr & _ & _ & Hid & Hexpiry).
  - vm_compute; reflexivity.
  - reflexivity.
  - exists r. split; [exact Hr|]. split; [exact Hid|exact Hexpiry].
Defined.

End local_more.

(* ================================================================== *)
(** * More on the signer shim *)
(* ================================================================== *)

Module utils_more.

Import utils utils_props.

(** [AlgSigner] returns its argument or the wrapper around it. *)
Lemma AlgSigner_cases (s : Signer) (alg : string) :
  AlgSigner s alg = s \/
  exists a : ssh.AlgorithmSigner,
    alg <> "" /\ rsa_key s /\ as_AlgorithmSigner s = Some a /\
    AlgSigner s alg = Fixed {| AlgorithmSigner := a; alg := alg |}.
Proof.
  destruct (String.eqb_spec alg "") as [Halg|Halg].
  { left. apply AlgSigner_same. by left. }
  destruct (negb (PublicKey_Type s =? ssh.KeyAlgoRSA)%string
            && negb (PublicKey_Type s =? ssh.CertAlgoRSAv01)%string) eqn:Hkey.
  { left. apply AlgSigner_same. right. left.
    intros Hrsa%rsa_key_test. congruence. }
  apply rsa_key_test in Hkey.
  destruct (as_AlgorithmSigner s) as [a|] eqn:Has.
  - right. exists a. repeat split; try done. by apply AlgSigner_wraps.
  - left. apply AlgSigner_same. by right; right.
Qed.

(** The methods the type assertion finds report the key of the signer. *)
Lemma as_AlgorithmSigner_key (s : Signer) (a : ssh.AlgorithmSigner) :
  as_AlgorithmSigner s = Some a -> ssh.PublicKeyType a = PublicKey_Type s.
Proof. destruct s; simpl; by intros [= <-]. Qed.

(** X17: [AlgSigner] never changes the public key a signer reports:
    the wrapper takes [PublicKey] from the signer it embeds. *)
Theorem AlgSigner_keeps_public_key (s : Signer) (alg : string) :
  PublicKey_Type (AlgSigner s alg) = PublicKey_Type s.
Proof.
  destruct (AlgSigner_cases s alg) as [->|(a & _ & _ & Has & ->)]; [done|].
  simpl. by apply as_AlgorithmSigner_key.
Qed.

(** X18: [AlgSigner] neither adds nor removes the [SignWithAlgorithm]
    method: its result is an [ssh.AlgorithmSigner] exactly when its
    argument is one. *)
Theorem AlgSigner_keeps_capability (s : Signer) (alg : string) :
  is_Some (as_AlgorithmSigner (AlgSigner s alg))
  <-> is_Some (as_AlgorithmSigner s).
Proof.
  destruct (AlgSigner_cases s alg) as [->|(a & _ & _ & Has & ->)]; [done|].
  rewrite Has. simpl. split; intros _; by eexists.
Qed.

(** X19: wrapping twice, the outer algorithm is the one in force.  For an
    RSA signer with methods [a], wrapped with [A] and then with [B]
    (both not empty): [Sign] signs with [B]; [SignWithAlgorithm] signs
    with [B] when the caller names no algorithm and with the caller's
    algorithm otherwise; the inner [A] is never used. *)
Theorem AlgSigner_twice
    (s : Signer) (a : ssh.AlgorithmSigner) (A B alg' : string)
    (rand : ssh.Reader) (data : bytes) :
  A <> "" -> B <> "" -> rsa_key s -> as_AlgorithmSigner s = Some a ->
  let twice := AlgSigner (AlgSigner s A) B in
  Sign twice rand data = ssh.SignWithAlgorithm a rand data B /\
  exists w : ssh.AlgorithmSigner,
    as_AlgorithmSigner twice = Some w /\
    ssh.SignWithAlgorithm w rand data alg'
    = ssh.SignWithAlgorithm a rand data
        (if (alg' =? "")%string then B else alg').
Proof.
  intros HA HB Hrsa Has twice. subst twice.
  rewrite (AlgSigner_wraps s A a HA Hrsa Has).
  set (inner := {| AlgorithmSigner := a; alg := A |}).
  assert (Hinner : rsa_key (Fixed inner)).
  { unfold rsa_key in *. simpl. by rewrite (as_AlgorithmSigner_key s a Has). }
  rewrite (AlgSigner_wraps (Fixed inner) B _ HB Hinner eq_refl).
  simpl. unfold fixed_Sign, fixed_SignWithAlgorithm; simpl.
  split.
  - by destruct (String.eqb_spec B "").
  - eexists. split; [reflexivity|]. simpl.
    unfold fixed_SignWithAlgorithm; simpl.
    destruct (String.eqb_spec alg' "") as [->|Halg]; simpl.
    + by destruct (String.eqb_spec B "").
    + by destruct (String.eqb_spec alg' "").
Qed.

Import example.

Lemma AlgSigner_twice_witness :
  Sign (AlgSigner (AlgSigner rsa_signer "rsa-sha2-256") "rsa-sha2-512")
    [] [Byte.x68; Byte.x69]
  = inr (ssh.MkSignature "rsa-sha2-512" [Byte.x68; Byte.x69]).
Proof.
  destruct (AlgSigner_twice rsa_signer rsa_methods "rsa-sha2-256"
              "rsa-sha2-512" "" [] [Byte.x68; Byte.x69])
    as [Hsign _].
  - discriminate.
  - discriminate.
  - left. reflexivity.
  - reflexivity.
  - exact Hsign.
Defined.

End utils_more.
